(** * Inbox Party waitlist API: a model of [backend/server.py]

    The development follows the layout of the source file: text helpers
    (the Python string built-ins the handler relies on), the storage
    functions over the [waitlist] table, the sanitizers, the request
    handler, and finally the properties of each of them.

    Text is modelled by [string], whose characters are the code points
    U+0000 .. U+00FF.  This is the alphabet in which [http.server] delivers
    header values (they are decoded as ISO-8859-1), and on it the tables
    for [str.isspace], [str.isdigit] and [str.lower] below are those of
    Python.

    A [do_*] method is a function of the table and of what surrounds the
    request (the [world]: which backend is in use, the time stamp the
    database hands out, the statements the backend fails).  It answers an
    [outcome]: the response it sent, or the exception that left it. *)

From Stdlib Require Import Bool Arith ZArith NArith Lia List.
From Stdlib Require Import Ascii String DecimalString.
From Stdlib Require Import Sorting.Sorted Sorting.Permutation.
Import ListNotations.

Local Open Scope string_scope.
Local Open Scope bool_scope.

(** ** Python text built-ins *)

Module Py.

(** [str.isspace] on one character: TAB..CR, FS..US, SPACE, NEL, NBSP. *)
Definition isspace (c : ascii) : bool :=
  let n := N_of_ascii c in
  ((9 <=? n) && (n <=? 13) || (28 <=? n) && (n <=? 32)
   || (n =? 133) || (n =? 160))%N.

(** The decimal digits [0-9], the only characters [int] accepts as digits. *)
Definition isdecimal (c : ascii) : bool :=
  let n := N_of_ascii c in ((48 <=? n) && (n <=? 57))%N.

(** [str.isdigit] on one character: the decimal digits and the superscript
    digits U+00B2, U+00B3, U+00B9. *)
Definition isdigit_char (c : ascii) : bool :=
  let n := N_of_ascii c in
  (isdecimal c || (n =? 178) || (n =? 179) || (n =? 185))%N.

Fixpoint forallb_string (p : ascii -> bool) (s : string) : bool :=
  match s with
  | EmptyString => true
  | String c s' => p c && forallb_string p s'
  end.

(** [s.isdigit()]: non-empty and every character is a digit. *)
Definition isdigit (s : string) : bool :=
  match s with
  | EmptyString => false
  | _ => forallb_string isdigit_char s
  end.

(** [str.lower] on one character: A-Z and the upper-case letters
    U+00C0..U+00DE (U+00D7, the multiplication sign, excluded). *)
Definition lower_char (c : ascii) : ascii :=
  let n := N_of_ascii c in
  if ((65 <=? n) && (n <=? 90)
      || (192 <=? n) && (n <=? 222) && negb (n =? 215))%N
  then ascii_of_N (n + 32) else c.

Fixpoint lower (s : string) : string :=
  match s with
  | EmptyString => EmptyString
  | String c s' => String (lower_char c) (lower s')
  end.

Fixpoint lstrip (s : string) : string :=
  match s with
  | EmptyString => EmptyString
  | String c s' => if isspace c then lstrip s' else s
  end.

Fixpoint rstrip (s : string) : string :=
  match s with
  | EmptyString => EmptyString
  | String c s' =>
      match rstrip s' with
      | EmptyString => if isspace c then EmptyString else String c EmptyString
      | r => String c r
      end
  end.

(** [s.strip()] *)
Definition strip (s : string) : string := rstrip (lstrip s).

(** [s.rstrip(ch)] for a one-character argument. *)
Fixpoint rstrip_char (ch : ascii) (s : string) : string :=
  match s with
  | EmptyString => EmptyString
  | String c s' =>
      match rstrip_char ch s' with
      | EmptyString =>
          if Ascii.eqb c ch then EmptyString else String c EmptyString
      | r => String c r
      end
  end.

(** [needle in hay] *)
Fixpoint contains (needle hay : string) : bool :=
  String.prefix needle hay
  || match hay with
     | EmptyString => false
     | String _ hay' => contains needle hay'
     end.

(** [c in s] for a single character. *)
Fixpoint contains_char (ch : ascii) (s : string) : bool :=
  match s with
  | EmptyString => false
  | String c s' => Ascii.eqb c ch || contains_char ch s'
  end.

(** [s.replace(ch, by)] for a one-character pattern. *)
Fixpoint replace_char (ch : ascii) (by_ : string) (s : string) : string :=
  match s with
  | EmptyString => EmptyString
  | String c s' =>
      (if Ascii.eqb c ch then by_ else String c EmptyString)
      ++ replace_char ch by_ s'
  end.

(** [sep.join(parts)] *)
Fixpoint join (sep : string) (parts : list string) : string :=
  match parts with
  | [] => EmptyString
  | [p] => p
  | p :: rest => p ++ sep ++ join sep rest
  end.

(** The digits of an integer literal after the sign: decimal digits, with
    single underscores allowed between two digits. [prev] tells whether
    the previous character was a digit. *)
Fixpoint int_digits (acc : Z) (prev : bool) (s : string) : option Z :=
  match s with
  | EmptyString => if prev then Some acc else None
  | String c s' =>
      if isdecimal c
      then int_digits (10 * acc + Z.of_N (N_of_ascii c - 48)) true s'
      else if Ascii.eqb c "_" && prev then int_digits acc false s'
      else None
  end.

(** The white space [int] drops around a number: TAB..CR and SPACE, and
    NEL and NBSP, which it first turns into spaces.  FS..US are white
    space for [str.isspace] and not for [int]. *)
Definition int_space (c : ascii) : bool :=
  let n := N_of_ascii c in
  ((9 <=? n) && (n <=? 13) || (n =? 32) || (n =? 133) || (n =? 160))%N.

Fixpoint int_lstrip (s : string) : string :=
  match s with
  | EmptyString => EmptyString
  | String c s' => if int_space c then int_lstrip s' else s
  end.

Fixpoint int_rstrip (s : string) : string :=
  match s with
  | EmptyString => EmptyString
  | String c s' =>
      match int_rstrip s' with
      | EmptyString => if int_space c then EmptyString else String c EmptyString
      | r => String c r
      end
  end.

(** The number of digits [0-9] of a text. *)
Fixpoint digit_count (s : string) : nat :=
  match s with
  | EmptyString => 0
  | String c s' => (if isdecimal c then 1 else 0) + digit_count s'
  end.

(** The most digits [int] reads ([sys.int_info.default_max_str_digits]). *)
Definition max_str_digits : nat := 4300.

(** [int(s)] for a text argument; [None] stands for [ValueError].
    Surrounding white space is dropped, one sign is accepted, and a
    number of more than [max_str_digits] digits is refused. *)
Definition int (s : string) : option Z :=
  let signed :=
    match int_rstrip (int_lstrip s) with
    | String "-" d => (true, d)
    | String "+" d => (false, d)
    | d => (false, d)
    end in
  if (max_str_digits <? digit_count (snd signed))%nat then None
  else if fst signed then option_map Z.opp (int_digits 0 false (snd signed))
  else int_digits 0 false (snd signed).

(** [str(n)] for an integer. *)
Definition str_int (n : Z) : string := NilZero.string_of_int (Z.to_int n).

End Py.

(** ** Values and exceptions *)

(** The double quote character, written by code. *)
Definition dq : ascii := "034"%char.

(** A value found under a key of the decoded JSON body.  [POther] stands
    for the values whose text form is not computed here (floats, lists,
    dicts); it carries the text [str] gives for the value. *)
Inductive pyval : Type :=
| PNone
| PBool (b : bool)
| PInt (n : Z)
| PStr (s : string)
| POther (text : string).

(** [str(value)] *)
Definition py_str (v : pyval) : string :=
  match v with
  | PNone => "None"
  | PBool true => "True"
  | PBool false => "False"
  | PInt n => Py.str_int n
  | PStr s => s
  | POther text => text
  end.

(** What [json.loads] returned: a dict, or a value of another type (list,
    text, number, boolean, null), none of which has a [get] method. *)
Inductive loaded : Type :=
| LDict (d : list (string * pyval))
| LOther.

(** The outcome of [json.loads(raw_body.decode("utf-8"))]: [decode]
    raises [UnicodeDecodeError]; [json.loads] raises [JSONDecodeError] on
    text that is not JSON, a plain [ValueError] on a number of more
    digits than [int] reads, [RecursionError] on nesting that is too deep;
    or a value is returned. *)
Inductive body_parse : Type :=
| UnicodeError
| JSONDecodeError
| NumberTooLong
| NestedTooDeep
| Loaded (p : loaded).

Inductive exn : Type :=
| ValueError
| IndexError
| AttributeError
| UnicodeDecodeError
| OverflowError
| RecursionError
| DatabaseError (msg : string).

(** A computation that returns or raises. *)
Inductive result (A : Type) : Type :=
| Ok (a : A)
| Raise (e : exn).
Arguments Ok {A} a.
Arguments Raise {A} e.

Definition bind {A B : Type} (r : result A) (k : A -> result B) : result B :=
  match r with
  | Ok a => k a
  | Raise e => Raise e
  end.

Notation "x <- r ;; k" := (bind r (fun x => k))
  (at level 61, r at next level, right associativity).

(** [d.get(key)] on the decoded body. *)
Fixpoint dict_get (d : list (string * pyval)) (key : string) : pyval :=
  match d with
  | [] => PNone
  | (k, v) :: d' => if String.eqb k key then v else dict_get d' key
  end.

(** ** Rows, entries and responses *)

(** A row of [waitlist].  The surrogate key [id] is read by no query of
    the program and is left out. *)
Record row : Type := mkRow {
  row_name : string;
  row_email : string;
  row_created_at : string
}.

(** The table, oldest insertion first. *)
Definition table : Type := list row.

(** One element of the list [waitlist_entries] returns. *)
Record entry : Type := mkEntry {
  name : string;
  email : string;
  created_at : string
}.

(** The values of the dicts the handler serialises with [json.dumps]. *)
Inductive json : Type :=
| JNull
| JInt (n : Z)
| JStr (s : string)
| JEntries (l : list entry).

Inductive content : Type :=
| NoBody
| JsonBody (fields : list (string * json))
| TextBody (s : string).

(** An answer: its status, the headers the code sends (the [Server] and
    [Date] headers that [send_response] adds to every answer are left
    out) and its body. *)
Record response : Type := mkResponse {
  status : Z;
  headers : list (string * string);
  body : content
}.

(** What a [do_*] method leaves behind: a response on the wire, or an
    exception that leaves the method before anything was sent. *)
Inductive outcome : Type :=
| Sent (r : response)
| Unhandled (e : exn).

Fixpoint header (name : string) (hs : list (string * string)) : option string :=
  match hs with
  | [] => None
  | (k, v) :: hs' => if String.eqb k name then Some v else header name hs'
  end.

(** ** Storage *)

(** [DATABASE_URL and HAS_POSTGRES] or not. *)
Inductive backend : Type := Postgres | Sqlite.

(** What surrounds one request: the backend in use, the text the database
    gives [created_at] on an insert, and the error, if any, with which the
    backend fails each kind of statement (lost connection, locked file). *)
Record world : Type := mkWorld {
  kind : backend;
  now : string;
  count_fault : option string;
  entries_fault : option string;
  insert_fault : option string
}.

(** The text of the error a violation of [email ... UNIQUE] raises. *)
Definition unique_violation (k : backend) (e : string) : string :=
  match k with
  | Sqlite => "UNIQUE constraint failed: waitlist.email"
  | Postgres =>
      "duplicate key value violates unique constraint "
      ++ String dq ("waitlist_email_key" ++ String dq
      (String "010"%char ("DETAIL:  Key (email)=(" ++ e ++ ") already exists.")))
  end.

Definition waitlist_count (w : world) (t : table) : result Z :=
  match count_fault w with
  | Some msg => Raise (DatabaseError msg)
  | None => Ok (Z.of_nat (List.length t))
  end.

(** [ORDER BY created_at DESC].  Both backends write time stamps as
    [YYYY-MM-DD HH:MM:SS], for which the order of the texts is the order
    of the times.  Rows with equal time stamps stay in the order of the
    table, a choice SQL leaves open. *)
Fixpoint insert_desc (r : row) (l : list row) : list row :=
  match l with
  | [] => [r]
  | x :: l' =>
      if String.leb (row_created_at x) (row_created_at r)
      then r :: l
      else x :: insert_desc r l'
  end.

Definition order_by_created_at_desc (t : table) : list row :=
  fold_right insert_desc [] t.

Definition entry_of_row (r : row) : entry :=
  mkEntry (row_name r) (row_email r) (row_created_at r).

(** What binding a [LIMIT] of [2^63] or more raises: SQLite integers are
    64-bit and the driver refuses the number; PostgreSQL refuses it as a
    [bigint]. *)
Definition limit_out_of_range (k : backend) : exn :=
  match k with
  | Sqlite => OverflowError
  | Postgres => DatabaseError "bigint out of range"
  end.

Definition waitlist_entries (w : world) (t : table) (limit : option Z)
  : result (list entry) :=
  match entries_fault w with
  | Some msg => Raise (DatabaseError msg)
  | None =>
      match limit with
      | Some n =>
          if (0 <? n)%Z
          then
            if (n <? 2 ^ 63)%Z
            then Ok (map entry_of_row
                       (firstn (Z.to_nat n) (order_by_created_at_desc t)))
            else Raise (limit_out_of_range (kind w))
          else Ok (map entry_of_row (order_by_created_at_desc t))
      | None => Ok (map entry_of_row (order_by_created_at_desc t))
      end
  end.

Definition email_taken (t : table) (e : string) : bool :=
  existsb (fun r => String.eqb (row_email r) e) t.

(** Returns the table after the insert. On an exception the transaction is
    not committed and the table is the one before the call. *)
Definition insert_waitlist_record (w : world) (t : table)
  (payload_name payload_email : string) : result table :=
  match insert_fault w with
  | Some msg => Raise (DatabaseError msg)
  | None =>
      if email_taken t payload_email
      then Raise (DatabaseError (unique_violation (kind w) payload_email))
      else Ok (t ++ [mkRow payload_name payload_email (now w)])%list
  end.

(** ** The pattern for emails *)

Module Re.

(** The pieces [EMAIL_PATTERN] is made of: a character class under [+],
    a literal character, and [$]. *)
Inductive atom : Type :=
| ClassPlus (cls : ascii -> bool)
| Lit (c : ascii)
| EndAnchor.

(** [pattern.match(s)]: the match starts at the first character (which
    makes a leading [^] redundant) and need not reach the end unless the
    pattern says so.  [+] takes as many characters as it can and gives
    them back one at a time.  [$] holds at the end of the text and before
    a newline that ends it. *)
Fixpoint matches (p : list atom) : string -> bool :=
  match p with
  | [] => fun _ => true
  | ClassPlus cls :: p' =>
      fix plus (s : string) : bool :=
        match s with
        | EmptyString => false
        | String c s' => cls c && (plus s' || matches p' s')
        end
  | Lit ch :: p' =>
      fun s =>
        match s with
        | EmptyString => false
        | String c s' => Ascii.eqb c ch && matches p' s'
        end
  | EndAnchor :: p' =>
      fun s =>
        match s with
        | EmptyString => matches p' s
        | String "010"%char EmptyString => matches p' s
        | _ => false
        end
  end.

End Re.

(** The class [[^\s@]]. *)
Definition not_space_at (c : ascii) : bool :=
  negb (Py.isspace c) && negb (Ascii.eqb c "@").

Definition EMAIL_PATTERN : list Re.atom :=
  [Re.ClassPlus not_space_at; Re.Lit "@"; Re.ClassPlus not_space_at;
   Re.Lit "."; Re.ClassPlus not_space_at; Re.EndAnchor].

(** ** Sanitizers *)

Definition _sanitize_name (value : pyval) : option string :=
  match value with
  | PNone => None
  | _ =>
      let cleaned := Py.strip (py_str value) in
      if (2 <=? String.length cleaned)%nat then Some cleaned else None
  end.

Definition _sanitize_email (value : pyval) : option string :=
  match value with
  | PNone => None
  | _ =>
      let candidate := Py.lower (Py.strip (py_str value)) in
      if Re.matches EMAIL_PATTERN candidate then Some candidate else None
  end.

(** ** The request handler *)

(** The methods [WaitlistHandler] defines; a request with another method
    is answered by the base class and reaches none of the code below. *)
Inductive method : Type := GET | POST | OPTIONS.

(** The outcome of [urlparse(self.path)] and of [parse_qs] on its query:
    [urlparse] raises [ValueError] on a target it cannot split (a
    bracketed host that is not closed), or the path and the parameters
    are returned. *)
Inductive url_parse : Type :=
| UrlError
| Url (parsed_path : string) (query : list (string * list string)).

(** What a [do_*] method reads of the request. *)
Record request : Type := mkRequest {
  command : method;
  path : string;
  url : url_parse;
  origin : option string;
  content_length : option string;
  body_parsed : body_parse
}.

(** [urlparse(self.path).path] and [parse_qs(urlparse(self.path).query)],
    when [urlparse] returns. *)
Definition url_path (req : request) : string :=
  match url req with
  | Url p _ => p
  | UrlError => EmptyString
  end.

Definition url_query (req : request) : list (string * list string) :=
  match url req with
  | Url _ q => q
  | UrlError => []
  end.

Fixpoint query_get (q : list (string * list string)) (key : string)
  : option (list string) :=
  match q with
  | [] => None
  | (k, vs) :: q' => if String.eqb k key then Some vs else query_get q' key
  end.

Definition _allowed_origin (req : request) : string :=
  match origin req with
  | None => "*"
  | Some EmptyString => "*"
  | Some o => if String.eqb o "null" then "*" else o
  end.

(** The three headers every method sends after its own. *)
Definition cors_headers (req : request) : list (string * string) :=
  [("Access-Control-Allow-Origin", _allowed_origin req);
   ("Access-Control-Allow-Headers", "Content-Type");
   ("Access-Control-Allow-Methods", "POST, OPTIONS, GET")].

Definition _set_headers (req : request) (content_type : string)
  : list (string * string) :=
  ("Content-Type", content_type) :: cors_headers req.

Definition _json_response (req : request) (fields : list (string * json))
  (st : Z) : response :=
  mkResponse st (_set_headers req "application/json") (JsonBody fields).

Definition do_OPTIONS (req : request) : response :=
  mkResponse 204 (cors_headers req) NoBody.

(** One field of a CSV line. *)
Definition csv_field (field : string) : string :=
  let value := Py.replace_char dq (String dq (String dq EmptyString)) field in
  if Py.contains_char "," value || Py.contains_char dq value
  then String dq (value ++ String dq EmptyString)
  else value.

Definition csv_line (e : entry) : string :=
  Py.join "," (map csv_field [name e; email e; created_at e]).

Definition newline : string := String "010"%char EmptyString.

Definition csv_data (entries : list entry) : string :=
  Py.join newline
    (Py.join "," ["name"; "email"; "created_at"] :: map csv_line entries).

Definition _send_csv (req : request) (entries : list entry) : response :=
  mkResponse 200
    (("Content-Type", "text/csv; charset=utf-8")
     :: ("Content-Disposition",
         "attachment; filename="
         ++ String dq ("inbox-party-waitlist.csv" ++ String dq EmptyString))
     :: cors_headers req)
    (TextBody (csv_data entries)).

(** The [limit] the entries route passes on: the first value of the
    parameter read by [int], dropped when [int] raises or when it is not
    positive. *)
Definition limit_of_query (q : list (string * list string)) : option Z :=
  match query_get q "limit" with
  | None => None
  | Some [] => None
  | Some (v :: _) =>
      match Py.int v with
      | None => None
      | Some n => if (n <=? 0)%Z then None else Some n
      end
  end.

(** [query.get("format", ["json"])[0].lower()] *)
Definition format_of_query (q : list (string * list string)) : result string :=
  match query_get q "format" with
  | None => Ok (Py.lower "json")
  | Some [] => Raise IndexError
  | Some (v :: _) => Ok (Py.lower v)
  end.

Definition opt_json (l : option Z) : json :=
  match l with
  | None => JNull
  | Some n => JInt n
  end.

Definition finish (r : result response) : outcome :=
  match r with
  | Ok resp => Sent resp
  | Raise e => Unhandled e
  end.

(** [do_GET] once [urlparse] and [parse_qs] have returned. *)
Definition route_GET (w : world) (t : table) (req : request)
  (parsed_path : string) (query : list (string * list string)) : outcome :=
  let p := match Py.rstrip_char "/" parsed_path with
           | EmptyString => "/"
           | p' => p'
           end in
  if String.eqb p "/health" || String.eqb p "/healthz"
  then Sent (_json_response req [("status", JStr "ok")] 200)
  else if String.eqb p "/api/waitlist"
  then finish (
    n <- waitlist_count w t ;;
    Ok (_json_response req [("count", JInt n)] 200))
  else if String.eqb p "/api/waitlist/entries"
  then
    let limit_value := limit_of_query query in
    finish (
      entries <- waitlist_entries w t limit_value ;;
      fmt <- format_of_query query ;;
      if String.eqb fmt "csv"
      then Ok (_send_csv req entries)
      else
        n <- waitlist_count w t ;;
        Ok (_json_response req
              [("entries", JEntries entries);
               ("count", JInt n);
               ("limit", opt_json limit_value)] 200))
  else Sent (_json_response req [("error", JStr "Not found")] 404).

Definition do_GET (w : world) (t : table) (req : request) : outcome :=
  match url req with
  | UrlError => Unhandled ValueError
  | Url parsed_path query => route_GET w t req parsed_path query
  end.

(** The method and the table it leaves. *)
Definition do_POST (w : world) (t : table) (req : request) : outcome * table :=
  if negb (String.eqb (Py.rstrip_char "/" (path req)) "/api/waitlist")
  then (Sent (_json_response req [("error", JStr "Not found")] 404), t)
  else
    match content_length req with
    | None =>
        (Sent (_json_response req [("error", JStr "Missing Content-Length")] 411), t)
    | Some length_header =>
        if match length_header with EmptyString => true | _ => false end
           || negb (Py.isdigit length_header)
        then
          (Sent (_json_response req [("error", JStr "Missing Content-Length")] 411), t)
        else
          match Py.int length_header with
          | None => (Unhandled ValueError, t)
          | Some _ =>
              match body_parsed req with
              | UnicodeError => (Unhandled UnicodeDecodeError, t)
              | NumberTooLong => (Unhandled ValueError, t)
              | NestedTooDeep => (Unhandled RecursionError, t)
              | JSONDecodeError =>
                  (Sent (_json_response req
                           [("error", JStr "Invalid JSON payload")] 400), t)
              | Loaded LOther => (Unhandled AttributeError, t)
              | Loaded (LDict payload) =>
                  let name := _sanitize_name (dict_get payload "name") in
                  let email := _sanitize_email (dict_get payload "email") in
                  match name, email with
                  | None, _ =>
                      (Sent (_json_response req
                         [("error", JStr "Please share your name so we can personalize the rollout.")]
                         400), t)
                  | Some _, None =>
                      (Sent (_json_response req
                         [("error", JStr "A valid email is required to join the waitlist.")]
                         400), t)
                  | Some name, Some email =>
                      match insert_waitlist_record w t name email with
                      | Raise e =>
                          let error_msg :=
                            Py.lower (match e with
                                      | DatabaseError msg => msg
                                      | _ => EmptyString
                                      end) in
                          if Py.contains "unique" error_msg
                             || Py.contains "duplicate" error_msg
                          then
                            (finish (
                               n <- waitlist_count w t ;;
                               Ok (_json_response req
                                     [("message", JStr "This email is already on the waitlist.");
                                      ("count", JInt n)] 409)), t)
                          else
                            (Sent (_json_response req
                               [("error", JStr "We hit a snag saving your request.")]
                               500), t)
                      | Ok t' =>
                          (finish (
                             n <- waitlist_count w t' ;;
                             Ok (_json_response req
                                   [("message", JStr "You're on the waitlist! We'll reach out as invites roll out.");
                                    ("email", JStr email);
                                    ("count", JInt n)] 201)), t')
                      end
                  end
              end
          end
    end.

(** One request served against the table. *)
Definition handle (w : world) (t : table) (req : request) : outcome * table :=
  match command req with
  | OPTIONS => (Sent (do_OPTIONS req), t)
  | GET => (do_GET w t req, t)
  | POST => do_POST w t req
  end.

(** [hasattr(self, "do_" + command)]: the method of the class a request
    line names, if the class has one. *)
Definition method_of (cmd : string) : option method :=
  if String.eqb cmd "GET" then Some GET
  else if String.eqb cmd "POST" then Some POST
  else if String.eqb cmd "OPTIONS" then Some OPTIONS
  else None.

(** [send_error(code)] of the base class: the error page [page] it
    formats, with its own headers and none of the handler's. *)
Definition send_error (code : Z) (page : string) : response :=
  mkResponse code
    [("Connection", "close");
     ("Content-Type", "text/html;charset=utf-8");
     ("Content-Length", Py.str_int (Z.of_nat (String.length page)))]
    (TextBody page).

Definition with_command (m : method) (req : request) : request :=
  mkRequest m (path req) (url req) (origin req) (content_length req)
    (body_parsed req).

(** [handle_one_request] of the base class, once the request line and the
    headers are read: the method [do_<command>] is called when the class
    has it, and the request is answered 501 otherwise. *)
Definition handle_one_request (page : string) (w : world) (t : table)
  (cmd : string) (req : request) : outcome * table :=
  match method_of cmd with
  | Some m => handle w t (with_command m req)
  | None => (Sent (send_error 501 page), t)
  end.

(** [init_db]: [CREATE TABLE IF NOT EXISTS] makes the empty table when the
    database has none and leaves a table that is there as it is. *)
Definition init_db (stored : option table) : table :=
  match stored with
  | None => []
  | Some t => t
  end.

(** [run_server]: [serve_forever] takes the requests one after the other,
    each against the table the one before left; an exception that leaves
    a [do_*] method ends that request and not the loop.  Each request
    comes with the [world] it is served in. *)
Fixpoint run_server (t : table) (reqs : list (world * request))
  : list outcome * table :=
  match reqs with
  | [] => ([], t)
  | (w, req) :: rest =>
      let (out, t') := handle w t req in
      let (outs, t'') := run_server t' rest in
      (out :: outs, t'')
  end.

(** * Vocabulary of the properties *)

(** The first and the last character of a text. *)
Definition first_char (s : string) : option ascii :=
  match s with
  | EmptyString => None
  | String c _ => Some c
  end.

Fixpoint last_char (s : string) : option ascii :=
  match s with
  | EmptyString => None
  | String c EmptyString => Some c
  | String _ s' => last_char s'
  end.

(** No white space at either end. *)
Definition clean_edges (s : string) : Prop :=
  (forall c, first_char s = Some c -> Py.isspace c = false)
  /\ (forall c, last_char s = Some c -> Py.isspace c = false).

(** [t] is [s] without the white space that surrounds it. *)
Definition trimmed_of (s t : string) : Prop :=
  exists pre post,
    s = pre ++ t ++ post
    /\ Py.forallb_string Py.isspace pre = true
    /\ Py.forallb_string Py.isspace post = true
    /\ clean_edges t.

(** An upper-case letter: A-Z, or one of U+00C0..U+00DE other than the
    multiplication sign. *)
Definition upper_case (c : ascii) : bool :=
  let n := N_of_ascii c in
  ((65 <=? n) && (n <=? 90)
   || (192 <=? n) && (n <=? 222) && negb (n =? 215))%N.

(** [y] is [s] lower-cased: each upper-case letter is replaced by the
    letter 32 places after it, and every other character is kept. *)
Fixpoint lower_cased_of (s y : string) : Prop :=
  match s, y with
  | EmptyString, EmptyString => True
  | String c s', String d y' =>
      (if upper_case c then N_of_ascii d = (N_of_ascii c + 32)%N else d = c)
      /\ lower_cased_of s' y'
  | _, _ => False
  end.

(** A non-empty run of characters of a class. *)
Definition run (cls : ascii -> bool) (a : string) : Prop :=
  a <> EmptyString /\ Py.forallb_string cls a = true.

(** The shape the specification gives an email: a run, [@], a run, [.],
    a run, where no run holds white space or [@]. *)
Definition email_shape (s : string) : Prop :=
  exists l h t,
    s = l ++ "@" ++ h ++ "." ++ t
    /\ run not_space_at l /\ run not_space_at h /\ run not_space_at t.

(** Newest first: every row is at least as recent as the rows after it. *)
Definition newer_or_same (x y : row) : Prop :=
  String.leb (row_created_at y) (row_created_at x) = true.

Definition newest_first (l : list row) : Prop :=
  StronglySorted newer_or_same l.

(** The entries are the rows, each with its name, its email and its
    time of creation. *)
Definition carries (es : list entry) (rows : list row) : Prop :=
  map name es = map row_name rows
  /\ map email es = map row_email rows
  /\ map created_at es = map row_created_at rows.

(** The [limit] parameter, when given, is not a positive integer: [int]
    rejects its first value or reads a number that is not positive. *)
Definition limit_param_not_positive (q : list (string * list string)) : Prop :=
  forall v vs n,
    query_get q "limit" = Some (v :: vs) -> Py.int v = Some n -> (n <= 0)%Z.

(** The field with each of its double quotes written twice. *)
Fixpoint doubled (f : string) : string :=
  match f with
  | EmptyString => EmptyString
  | String c f' =>
      if Ascii.eqb c dq then String dq (String dq (doubled f'))
      else String c (doubled f')
  end.

(** The field holds a comma or a double quote. *)
Definition needs_quotes (f : string) : bool :=
  Py.contains_char "," f || Py.contains_char dq f.

(** A field as the specification words it: bare, or quoted with its
    quotes doubled when it holds a comma or a quote. *)
Definition quoted_field (f : string) : string :=
  if needs_quotes f then String dq (doubled f ++ String dq EmptyString) else f.

Definition quoted_line (e : entry) : string :=
  quoted_field (name e) ++ "," ++ quoted_field (email e) ++ ","
  ++ quoted_field (created_at e).

(** The allowed origin as the specification words it: the [Origin] header
    when it is present and is not ["null"], and ["*"] otherwise. *)
Definition origin_unless_absent_or_null (req : request) : string :=
  match origin req with
  | None => "*"
  | Some o => if String.eqb o "null" then "*" else o
  end.

(** The same with the empty header counted as absent. *)
Definition origin_unless_empty_or_null (req : request) : string :=
  match origin req with
  | None => "*"
  | Some o =>
      if String.eqb o EmptyString || String.eqb o "null" then "*" else o
  end.

(** The status of the response, when there is one. *)
Definition status_of (out : outcome) : option Z :=
  match out with
  | Sent r => Some (status r)
  | Unhandled _ => None
  end.

(** The response, when there is one, allows [o]. *)
Definition allows (o : string) (out : outcome) : Prop :=
  match out with
  | Sent r => header "Access-Control-Allow-Origin" (headers r) = Some o
  | Unhandled _ => True
  end.

(** A request whose [Origin] header is present and empty. *)
Definition preflight_with_empty_origin : request :=
  mkRequest OPTIONS "/api/waitlist" (Url "/api/waitlist" []) (Some EmptyString)
    None JSONDecodeError.

Definition quiet_world : world :=
  mkWorld Sqlite "2024-05-01 10:00:00" None None None.

Definition failing_world : world :=
  mkWorld Sqlite "2024-05-01 10:00:00"
    (Some "database is locked") (Some "database is locked") None.

Definition get_request (target : string) : request :=
  mkRequest GET target (Url target []) None None JSONDecodeError.

(** A POST to the waitlist with a length header and a body outcome. *)
Definition post_request (length_header : string) (b : body_parse) : request :=
  mkRequest POST "/api/waitlist" (Url "/api/waitlist" []) None
    (Some length_header) b.

(** A length header made of the digits [0-9], no more of them than [int]
    reads. *)
Definition ascii_digits (h : string) : Prop :=
  h <> EmptyString /\ Py.forallb_string Py.isdecimal h = true
  /\ (String.length h <= Py.max_str_digits)%nat.

(** The backend answers the count and has no failure of its own on an
    insert. *)
Definition working (w : world) : Prop :=
  count_fault w = None /\ insert_fault w = None.

(** [req] is a POST to the waitlist that passes the checks on the length
    header, the body, the name and the email, with [n] and [e] the
    sanitized name and email. *)
Definition submits (req : request) (n e : string) : Prop :=
  Py.rstrip_char "/" (path req) = "/api/waitlist"
  /\ exists h payload,
       content_length req = Some h
       /\ ascii_digits h
       /\ body_parsed req = Loaded (LDict payload)
       /\ _sanitize_name (dict_get payload "name") = Some n
       /\ _sanitize_email (dict_get payload "email") = Some e.

Definition conflict (req : request) (count : nat) : response :=
  _json_response req
    [("message", JStr "This email is already on the waitlist.");
     ("count", JInt (Z.of_nat count))] 409.

Definition created (req : request) (e : string) (count : nat) : response :=
  _json_response req
    [("message", JStr "You're on the waitlist! We'll reach out as invites roll out.");
     ("email", JStr e);
     ("count", JInt (Z.of_nat count))] 201.

(** A POST to the waitlist whose body is the object with the two keys. *)
Definition signup (nm em : pyval) : request :=
  post_request "64" (Loaded (LDict [("name", nm); ("email", em)])).

(** Five signups of one morning, in the order of their insertion. *)
Definition five_rows : table :=
  [mkRow "Ada" "ada@example.org" "2024-05-01 09:00:00";
   mkRow "Bob" "bob@example.org" "2024-05-01 09:00:03";
   mkRow "Cyd" "cyd@example.org" "2024-05-01 09:00:05";
   mkRow "Dee" "dee@example.org" "2024-05-01 09:00:07";
   mkRow "Eli" "eli@example.org" "2024-05-01 09:00:09"].

Definition csv_request : request :=
  mkRequest GET "/api/waitlist/entries?format=csv"
    (Url "/api/waitlist/entries" [("format", ["csv"])])
    None None JSONDecodeError.

(** No two rows hold the same email. *)
Definition unique_emails (t : table) : Prop := NoDup (map row_email t).

(** The row holds a name and an email the sanitizers answer as they are. *)
Definition sanitary_row (r : row) : Prop :=
  _sanitize_name (PStr (row_name r)) = Some (row_name r)
  /\ _sanitize_email (PStr (row_email r)) = Some (row_email r).

Definition sanitary (t : table) : Prop := Forall sanitary_row t.

(** The number of 201 answers among the outcomes of a run. *)
Fixpoint created_count (outs : list outcome) : nat :=
  match outs with
  | [] => 0
  | Sent r :: outs' =>
      (if (status r =? 201)%Z then 1 else 0) + created_count outs'
  | Unhandled _ :: outs' => created_count outs'
  end.

(** The request with one more [/] at the end of its paths. *)
Definition with_slash (req : request) : request :=
  mkRequest (command req) (path req ++ "/")
    (match url req with
     | Url p q => Url (p ++ "/") q
     | UrlError => UrlError
     end)
    (origin req) (content_length req) (body_parsed req).

(** How often a character occurs in a text. *)
Fixpoint count_char (ch : ascii) (s : string) : nat :=
  match s with
  | EmptyString => 0
  | String c s' => (if Ascii.eqb c ch then 1 else 0) + count_char ch s'
  end.

(** [text.split(newline)]: the lines of a text. *)
Fixpoint split_lines (s : string) : list string :=
  match s with
  | EmptyString => [EmptyString]
  | String c s' =>
      if Ascii.eqb c "010" then EmptyString :: split_lines s'
      else match split_lines s' with
           | l :: ls => String c l :: ls
           | [] => [String c EmptyString]
           end
  end.

(** The line feeds inside the fields of the entries. *)
Fixpoint embedded_newlines (entries : list entry) : nat :=
  match entries with
  | [] => 0
  | e :: es =>
      count_char "010" (name e) + count_char "010" (email e)
      + count_char "010" (created_at e) + embedded_newlines es
  end.

(** A morning of requests against a new database. *)
Definition morning_run : list (world * request) :=
  [(quiet_world, signup (PStr "Ada") (PStr "ada@example.org"));
   (quiet_world, signup (PStr "ada l.") (PStr " ADA@example.org"));
   (failing_world, get_request "/api/waitlist");
   (quiet_world, signup (PStr "Bob") (PStr "bob@example.org"));
   (quiet_world, get_request "/api/waitlist/entries")].

(** The request reaches no storage call: OPTIONS, or a GET whose target
    [urlparse] splits and whose path, without the [/] at its end, is
    neither route over the table. *)
Definition storage_free (req : request) : Prop :=
  match command req with
  | OPTIONS => True
  | GET =>
      url req <> UrlError
      /\ Py.rstrip_char "/" (url_path req) <> "/api/waitlist"
      /\ Py.rstrip_char "/" (url_path req) <> "/api/waitlist/entries"
  | POST => False
  end.

(** The headers go with the body. *)
Definition well_headed (out : outcome) : Prop :=
  match out with
  | Sent r =>
      header "Access-Control-Allow-Headers" (headers r) = Some "Content-Type"
      /\ header "Access-Control-Allow-Methods" (headers r)
         = Some "POST, OPTIONS, GET"
      /\ header "Content-Type" (headers r)
         = match body r with
           | JsonBody _ => Some "application/json"
           | TextBody _ => Some "text/csv; charset=utf-8"
           | NoBody => None
           end
      /\ (header "Content-Disposition" (headers r) <> None
          <-> exists s, body r = TextBody s)
  | Unhandled _ => True
  end.

(** * Properties *)

(** ** Text *)

Section Text.

Ltac by_cases_on_char c :=
  destruct c as [[] [] [] [] [] [] [] []]; reflexivity.

Lemma isspace_lower_char (c : ascii) :
  Py.isspace (Py.lower_char c) = Py.isspace c.
Proof. by_cases_on_char c. Qed.

Lemma lower_char_idem (c : ascii) :
  Py.lower_char (Py.lower_char c) = Py.lower_char c.
Proof. by_cases_on_char c. Qed.

Lemma isdecimal_isdigit_char (c : ascii) :
  Py.isdecimal c = true -> Py.isdigit_char c = true.
Proof. unfold Py.isdigit_char. intros ->. reflexivity. Qed.

Lemma lower_idem (s : string) : Py.lower (Py.lower s) = Py.lower s.
Proof.
  induction s as [|c s IH]; simpl; [reflexivity|].
  now rewrite lower_char_idem, IH.
Qed.

Lemma lstrip_lower (s : string) :
  Py.lstrip (Py.lower s) = Py.lower (Py.lstrip s).
Proof.
  induction s as [|c s IH]; simpl; [reflexivity|].
  rewrite isspace_lower_char. destruct (Py.isspace c); [exact IH | reflexivity].
Qed.

Lemma rstrip_lower (s : string) :
  Py.rstrip (Py.lower s) = Py.lower (Py.rstrip s).
Proof.
  induction s as [|c s IH]; simpl; [reflexivity|].
  rewrite IH, isspace_lower_char.
  destruct (Py.rstrip s); simpl; [destruct (Py.isspace c)|]; reflexivity.
Qed.

Lemma strip_lower (s : string) :
  Py.strip (Py.lower s) = Py.lower (Py.strip s).
Proof. unfold Py.strip. now rewrite lstrip_lower, rstrip_lower. Qed.

Lemma lstrip_split (s : string) :
  exists pre, s = pre ++ Py.lstrip s
    /\ Py.forallb_string Py.isspace pre = true
    /\ (forall c, first_char (Py.lstrip s) = Some c -> Py.isspace c = false).
Proof.
  induction s as [|c s (pre & E & Hpre & Hfirst)]; simpl.
  - exists EmptyString. repeat split; [discriminate].
  - destruct (Py.isspace c) eqn:Hc.
    + exists (String c pre). simpl. rewrite Hc, Hpre. repeat split; [|exact Hfirst].
      now rewrite <- E.
    + exists EmptyString. repeat split. simpl. intros c' [= <-]. exact Hc.
Qed.

Lemma rstrip_split (s : string) :
  exists post, s = Py.rstrip s ++ post
    /\ Py.forallb_string Py.isspace post = true
    /\ (forall c, last_char (Py.rstrip s) = Some c -> Py.isspace c = false).
Proof.
  induction s as [|c s (post & E & Hpost & Hlast)]; simpl.
  - exists EmptyString. repeat split; [discriminate].
  - destruct (Py.rstrip s) as [|d r] eqn:Hr.
    + destruct (Py.isspace c) eqn:Hc.
      * exists (String c post). simpl in *. rewrite Hc, Hpost. repeat split.
        { now rewrite <- E. } discriminate.
      * exists post. simpl in *. repeat split; [now rewrite <- E | exact Hpost |].
        intros c' [= <-]. exact Hc.
    + exists post. repeat split; [simpl in *; now rewrite <- E | exact Hpost |].
      exact Hlast.
Qed.

Lemma rstrip_first_char (s : string) :
  (forall c, first_char s = Some c -> Py.isspace c = false) ->
  first_char (Py.rstrip s) = first_char s.
Proof.
  destruct s as [|c s]; simpl; [reflexivity|]. intros H.
  destruct (Py.rstrip s); [|reflexivity].
  now rewrite (H c eq_refl).
Qed.

Lemma strip_trimmed (s : string) : trimmed_of s (Py.strip s).
Proof.
  unfold Py.strip.
  destruct (lstrip_split s) as (pre & E1 & Hpre & Hfirst).
  destruct (rstrip_split (Py.lstrip s)) as (post & E2 & Hpost & Hlast).
  exists pre, post. repeat split; try assumption.
  - now rewrite <- E2.
  - rewrite (rstrip_first_char _ Hfirst). exact Hfirst.
Qed.

Lemma lstrip_fixed (s : string) :
  (forall c, first_char s = Some c -> Py.isspace c = false) ->
  Py.lstrip s = s.
Proof.
  destruct s as [|c s]; simpl; [reflexivity|]. intros H.
  now rewrite (H c eq_refl).
Qed.

Lemma rstrip_idem (s : string) : Py.rstrip (Py.rstrip s) = Py.rstrip s.
Proof.
  induction s as [|c s IH]; simpl; [reflexivity|].
  destruct (Py.rstrip s) as [|d r] eqn:Hr.
  - destruct (Py.isspace c) eqn:Hc; simpl; [reflexivity | now rewrite Hc].
  - change (Py.rstrip (String c (String d r)))
      with (match Py.rstrip (String d r) with
            | EmptyString =>
                if Py.isspace c then EmptyString else String c EmptyString
            | x => String c x
            end).
    now rewrite IH.
Qed.

Lemma strip_idem (s : string) : Py.strip (Py.strip s) = Py.strip s.
Proof.
  unfold Py.strip.
  destruct (lstrip_split s) as (pre & _ & _ & Hfirst).
  rewrite (lstrip_fixed (Py.rstrip (Py.lstrip s))).
  - apply rstrip_idem.
  - rewrite (rstrip_first_char _ Hfirst). exact Hfirst.
Qed.

Lemma strip_last_char (s : string) (c : ascii) :
  last_char (Py.strip s) = Some c -> Py.isspace c = false.
Proof. destruct (strip_trimmed s) as (? & ? & _ & _ & _ & _ & H). apply H. Qed.

Lemma last_char_app (a : string) (c : ascii) :
  last_char (a ++ String c EmptyString) = Some c.
Proof.
  induction a as [|d a IH]; simpl; [reflexivity|].
  destruct (a ++ String c EmptyString) eqn:E; [|exact IH].
  destruct a; discriminate.
Qed.

Lemma last_char_lower (s : string) :
  last_char (Py.lower s) = option_map Py.lower_char (last_char s).
Proof.
  induction s as [|c s IH]; simpl; [reflexivity|].
  destruct s; simpl in *; [reflexivity | exact IH].
Qed.

End Text.

(** ** The email pattern *)

Section Pattern.

Lemma append_assoc (a b c : string) : (a ++ b) ++ c = a ++ (b ++ c).
Proof. induction a as [|x a IH]; simpl; [reflexivity | now rewrite IH]. Qed.

Lemma append_nil_r (a : string) : a ++ EmptyString = a.
Proof. induction a as [|x a IH]; simpl; [reflexivity | now rewrite IH]. Qed.

Lemma matches_plus_step cls p c s :
  Re.matches (Re.ClassPlus cls :: p) (String c s)
  = cls c && (Re.matches (Re.ClassPlus cls :: p) s || Re.matches p s).
Proof. reflexivity. Qed.

Lemma matches_plus cls p s :
  Re.matches (Re.ClassPlus cls :: p) s = true
  <-> exists a r, s = a ++ r /\ run cls a /\ Re.matches p r = true.
Proof.
  induction s as [|c s IH].
  - split; [discriminate|]. intros (a & r & E & [Ha _] & _).
    destruct a; [congruence | discriminate].
  - rewrite matches_plus_step. split.
    + intros H. apply andb_true_iff in H as [Hc H].
      apply orb_true_iff in H as [H|H].
      * apply IH in H as (a & r & -> & [_ Ha] & Hr).
        exists (String c a), r. repeat split; [discriminate | | exact Hr].
        simpl. now rewrite Hc.
      * exists (String c EmptyString), s.
        repeat split; [discriminate | | exact H]. simpl. now rewrite Hc.
    + intros (a & r & E & [Ha Hall] & Hr).
      destruct a as [|d a]; [congruence|]. simpl in E, Hall.
      injection E as <- ->. apply andb_true_iff in Hall as [Hc Hall].
      rewrite Hc. simpl. apply orb_true_iff.
      destruct a as [|e a]; [right; exact Hr|].
      left. apply IH. exists (String e a), r.
      repeat split; [discriminate | exact Hall | exact Hr].
Qed.

Lemma matches_lit ch p s :
  Re.matches (Re.Lit ch :: p) s = true
  <-> exists r, s = String ch r /\ Re.matches p r = true.
Proof.
  destruct s as [|c s]; simpl.
  - split; [discriminate | intros (? & ? & _); discriminate].
  - split.
    + intros H. apply andb_true_iff in H as [Hc H].
      apply Ascii.eqb_eq in Hc as ->. now exists s.
    + intros (r & [= -> ->] & H). now rewrite Ascii.eqb_refl.
Qed.

Lemma matches_end s :
  Re.matches [Re.EndAnchor] s = true <-> s = EmptyString \/ s = newline.
Proof.
  split.
  - destruct s as [|c [|d s]]; simpl; [now left | | ].
    + destruct (Ascii.ascii_dec c "010") as [->|N]; [now right|].
      destruct c as [[] [] [] [] [] [] [] []]; try discriminate.
      now elim N.
    + destruct c as [[] [] [] [] [] [] [] []]; discriminate.
  - intros [-> | ->]; reflexivity.
Qed.

Lemma email_pattern_matches (s : string) :
  Re.matches EMAIL_PATTERN s = true
  <-> exists l h t e,
        s = l ++ "@" ++ h ++ "." ++ t ++ e
        /\ run not_space_at l /\ run not_space_at h /\ run not_space_at t
        /\ (e = EmptyString \/ e = newline).
Proof.
  unfold EMAIL_PATTERN. rewrite matches_plus. split.
  - intros (l & r1 & -> & Hl & H).
    apply matches_lit in H as (r2 & -> & H).
    apply matches_plus in H as (h & r3 & -> & Hh & H).
    apply matches_lit in H as (r4 & -> & H).
    apply matches_plus in H as (t & e & -> & Ht & H).
    apply matches_end in H.
    exists l, h, t, e. split; [reflexivity | tauto].
  - intros (l & h & t & e & -> & Hl & Hh & Ht & He).
    exists l, ("@" ++ h ++ "." ++ t ++ e). repeat split; try apply Hl.
    apply matches_lit. eexists; split; [reflexivity|].
    apply matches_plus. exists h, ("." ++ t ++ e). repeat split; try apply Hh.
    apply matches_lit. eexists; split; [reflexivity|].
    apply matches_plus. exists t, e. repeat split; try apply Ht.
    now apply matches_end.
Qed.

(** On a text that does not end in white space, [$] can only hold at the
    end and the pattern says what the shape says. *)
Lemma email_pattern_shape (s : string) :
  (forall c, last_char s = Some c -> Py.isspace c = false) ->
  Re.matches EMAIL_PATTERN s = true <-> email_shape s.
Proof.
  intros Hlast. rewrite email_pattern_matches. split.
  - intros (l & h & t & e & E & Hl & Hh & Ht & [-> | ->]).
    + exists l, h, t. rewrite append_nil_r in E. tauto.
    + exfalso.
      assert (L : last_char s = Some "010"%char).
      { rewrite E. unfold newline.
        rewrite <- !append_assoc. apply last_char_app. }
      specialize (Hlast _ L). discriminate.
  - intros (l & h & t & E & Hl & Hh & Ht).
    exists l, h, t, EmptyString. rewrite append_nil_r. tauto.
Qed.

Lemma candidate_last_char (s : string) (c : ascii) :
  last_char (Py.lower (Py.strip s)) = Some c -> Py.isspace c = false.
Proof.
  rewrite last_char_lower.
  destruct (last_char (Py.strip s)) as [d|] eqn:E; [|discriminate].
  intros [= <-]. rewrite isspace_lower_char. now apply (strip_last_char s).
Qed.

Lemma candidate_fixed (s : string) :
  Py.lower (Py.strip (Py.lower (Py.strip s))) = Py.lower (Py.strip s).
Proof. now rewrite strip_lower, strip_idem, lower_idem. Qed.

End Pattern.

(** ** The sanitizers *)

Section Sanitizers.

Lemma sanitize_name_text (s : string) :
  _sanitize_name (PStr s)
  = if (2 <=? String.length (Py.strip s))%nat
    then Some (Py.strip s) else None.
Proof. reflexivity. Qed.

Lemma sanitize_email_some (v : pyval) (y : string) :
  _sanitize_email v = Some y ->
  v <> PNone
  /\ y = Py.lower (Py.strip (py_str v))
  /\ Re.matches EMAIL_PATTERN y = true.
Proof.
  unfold _sanitize_email. intros H.
  assert (N : v <> PNone) by (intros ->; discriminate).
  assert (E : (if Re.matches EMAIL_PATTERN (Py.lower (Py.strip (py_str v)))
               then Some (Py.lower (Py.strip (py_str v))) else None) = Some y)
    by (destruct v; [discriminate | exact H ..]).
  destruct (Re.matches EMAIL_PATTERN (Py.lower (Py.strip (py_str v)))) eqn:M;
    [|discriminate].
  injection E as <-. auto.
Qed.

Lemma sanitize_email_text (s : string) :
  _sanitize_email (PStr s)
  = if Re.matches EMAIL_PATTERN (Py.lower (Py.strip s))
    then Some (Py.lower (Py.strip s)) else None.
Proof. reflexivity. Qed.

Lemma sanitize_email_fixed (v : pyval) (y : string) :
  _sanitize_email v = Some y -> _sanitize_email (PStr y) = Some y.
Proof.
  intros H. apply sanitize_email_some in H as (_ & -> & M).
  rewrite sanitize_email_text, candidate_fixed. now rewrite M.
Qed.

End Sanitizers.

(** C3. [_sanitize_name] rejects an absent or null name; on a text it
    answers the text without its surrounding white space when at least
    two characters remain, and rejects it otherwise.  ["A"] is rejected
    and ["Al"] is accepted. *)
Theorem sanitize_name_trims_and_requires_two (s : string) :
  _sanitize_name PNone = None
  /\ trimmed_of s (Py.strip s)
  /\ _sanitize_name (PStr s)
     = (if (2 <=? String.length (Py.strip s))%nat
        then Some (Py.strip s) else None)
  /\ _sanitize_name (PStr "A") = None
  /\ _sanitize_name (PStr "Al") = Some "Al".
Proof.
  split; [reflexivity|]. split; [apply strip_trimmed|].
  split; [apply sanitize_name_text|]. split; reflexivity.
Qed.

Lemma lower_char_cased (c : ascii) :
  if upper_case c
  then N_of_ascii (Py.lower_char c) = (N_of_ascii c + 32)%N
  else Py.lower_char c = c.
Proof. destruct c as [[] [] [] [] [] [] [] []]; reflexivity. Qed.

Lemma lower_cased (s : string) : lower_cased_of s (Py.lower s).
Proof.
  induction s as [|c s IH]; simpl; [exact I|].
  split; [apply lower_char_cased | exact IH].
Qed.

(** C4. [_sanitize_email] rejects an absent or null email; on a text it
    answers the text trimmed and lower-cased exactly when that text has
    the shape run [@] run [.] run, and rejects it otherwise.  The answer
    is the text without the white space around it, with each upper-case
    letter replaced by its lower-case letter: ["  Foo@BAR.com "] gives
    ["foo@bar.com"]. *)
Theorem sanitize_email_accepts_exactly_the_shape (s y : string) :
  _sanitize_email PNone = None
  /\ (_sanitize_email (PStr s) = Some y
      <-> y = Py.lower (Py.strip s) /\ email_shape y)
  /\ (_sanitize_email (PStr s) = None
      <-> ~ email_shape (Py.lower (Py.strip s)))
  /\ trimmed_of s (Py.strip s)
  /\ lower_cased_of (Py.strip s) (Py.lower (Py.strip s))
  /\ _sanitize_email (PStr "  Foo@BAR.com ") = Some "foo@bar.com"
  /\ _sanitize_email (PStr "FOO@bar") = None.
Proof.
  split; [reflexivity|].
  assert (T : trimmed_of s (Py.strip s)
              /\ lower_cased_of (Py.strip s) (Py.lower (Py.strip s))
              /\ _sanitize_email (PStr "  Foo@BAR.com ") = Some "foo@bar.com"
              /\ _sanitize_email (PStr "FOO@bar") = None).
  { split; [apply strip_trimmed|]. split; [apply lower_cased|].
    split; reflexivity. }
  rewrite sanitize_email_text.
  pose proof (email_pattern_shape _ (candidate_last_char s)) as Hshape.
  destruct (Re.matches EMAIL_PATTERN (Py.lower (Py.strip s))) eqn:M.
  - assert (Sh : email_shape (Py.lower (Py.strip s))) by now apply Hshape.
    split; [|split; [|exact T]]; split.
    + intros [= <-]. auto.
    + now intros [-> _].
    + discriminate.
    + intros N. now elim N.
  - assert (Sh : ~ email_shape (Py.lower (Py.strip s))).
    { intros Sh. apply Hshape in Sh. discriminate. }
    split; [|split; [|exact T]]; split.
    + discriminate.
    + intros [-> Sh']. now elim Sh.
    + auto.
    + auto.
Qed.

(** C10. A value that is not null is put through [str] before it is
    validated: the sanitizers answer on it what they answer on its text.
    The number 42 is accepted as the name ["42"]; a boolean email is
    validated as the text ["True"]; a list whose text has the shape of an
    email is accepted as that text. *)
Theorem sanitizers_coerce_to_text (v : pyval) :
  v <> PNone ->
  _sanitize_name v = _sanitize_name (PStr (py_str v))
  /\ _sanitize_email v = _sanitize_email (PStr (py_str v))
  /\ _sanitize_name (PInt 42) = Some "42"
  /\ _sanitize_email (PBool true) = _sanitize_email (PStr "True")
  /\ _sanitize_email (POther "['a@b.c']") = Some "['a@b.c']".
Proof.
  intros N. destruct v; try (now elim N); repeat split; reflexivity.
Qed.

Lemma sanitizers_coerce_to_text_witness :
  _sanitize_name (PInt 42) = _sanitize_name (PStr (py_str (PInt 42)))
  /\ _sanitize_email (PInt 42) = _sanitize_email (PStr (py_str (PInt 42)))
  /\ _sanitize_name (PInt 42) = Some "42"
  /\ _sanitize_email (PBool true) = _sanitize_email (PStr "True")
  /\ _sanitize_email (POther "['a@b.c']") = Some "['a@b.c']".
Proof. apply (sanitizers_coerce_to_text (PInt 42)). discriminate. Defined.

(** ** Storage *)

Section Storage.

Lemma leb_trans (a b c : string) :
  String.leb a b = true -> String.leb b c = true -> String.leb a c = true.
Proof.
  revert b c. induction a as [|x a IH]; intros [|y b] [|z c];
    unfold String.leb; simpl; try congruence.
  unfold Ascii.compare.
  destruct (N.compare_spec (N_of_ascii x) (N_of_ascii y)) as [E1|L1|G1];
    destruct (N.compare_spec (N_of_ascii y) (N_of_ascii z)) as [E2|L2|G2];
    destruct (N.compare_spec (N_of_ascii x) (N_of_ascii z)) as [E3|L3|G3];
    try congruence; try lia.
  apply IH.
Qed.

Lemma insert_desc_perm (r : row) (l : list row) :
  Permutation (insert_desc r l) (r :: l).
Proof.
  induction l as [|x l IH]; simpl; [reflexivity|].
  destruct (String.leb (row_created_at x) (row_created_at r)); [reflexivity|].
  rewrite IH. apply perm_swap.
Qed.

Lemma insert_desc_sorted (r : row) (l : list row) :
  newest_first l -> newest_first (insert_desc r l).
Proof.
  unfold newest_first. induction 1 as [|x l Hl IH Hx]; simpl.
  - repeat constructor.
  - destruct (String.leb (row_created_at x) (row_created_at r)) eqn:E.
    + constructor; [now constructor|]. constructor; [exact E|].
      eapply Forall_impl; [|exact Hx]. intros y Hy.
      unfold newer_or_same in *. eapply leb_trans; eassumption.
    + constructor; [exact IH|].
      eapply Permutation_Forall; [symmetry; apply insert_desc_perm|].
      constructor; [|exact Hx]. unfold newer_or_same.
      destruct (String.leb_total (row_created_at x) (row_created_at r));
        congruence.
Qed.

Lemma order_by_perm (t : table) : Permutation (order_by_created_at_desc t) t.
Proof.
  induction t as [|r t IH]; simpl; [reflexivity|].
  rewrite insert_desc_perm. now constructor.
Qed.

Lemma order_by_sorted (t : table) : newest_first (order_by_created_at_desc t).
Proof.
  induction t as [|r t IH]; simpl; [constructor | now apply insert_desc_sorted].
Qed.

Lemma firstn_incl (n : nat) (l : list row) : incl (firstn n l) l.
Proof.
  revert l. induction n as [|n IH]; intros [|x l]; simpl;
    try (intros y []).
  - left. assumption.
  - right. now apply IH.
Qed.

Lemma firstn_sorted (n : nat) (l : list row) :
  newest_first l -> newest_first (firstn n l).
Proof.
  unfold newest_first. intros H. revert n.
  induction H as [|x l Hl IH Hx]; intros [|n]; simpl; try constructor.
  - apply IH.
  - eapply incl_Forall; [apply firstn_incl | exact Hx].
Qed.

Lemma order_by_length (t : table) :
  List.length (order_by_created_at_desc t) = List.length t.
Proof. apply Permutation_length, order_by_perm. Qed.

End Storage.

(** ** Listing *)

Section Routed.

Lemma url_of_route (req : request) (r : string) :
  Py.rstrip_char "/" (url_path req) = r -> r <> EmptyString ->
  url req = Url (url_path req) (url_query req).
Proof.
  unfold url_path, url_query. destruct (url req) as [|p q]; [|reflexivity].
  simpl. intros <- H. now elim H.
Qed.

(** On a target that [urlparse] splits into a path that names a route,
    [do_GET] is the routing on that path. *)
Lemma do_GET_routed (w : world) (t : table) (req : request) (r : string) :
  Py.rstrip_char "/" (url_path req) = r -> r <> EmptyString ->
  do_GET w t req = route_GET w t req (url_path req) (url_query req).
Proof.
  intros H N. unfold do_GET. now rewrite (url_of_route req r H N).
Qed.

End Routed.

Lemma limit_ignored (q : list (string * list string)) :
  limit_param_not_positive q -> limit_of_query q = None.
Proof.
  unfold limit_param_not_positive, limit_of_query. intros H.
  destruct (query_get q "limit") as [[|v vs]|]; try reflexivity.
  destruct (Py.int v) as [n|] eqn:E; [|reflexivity].
  specialize (H v vs n eq_refl E). apply Z.leb_le in H. now rewrite H.
Qed.

Lemma entries_all (w : world) (t : table) (limit : option Z) :
  entries_fault w = None ->
  match limit with Some n => (n <= 0)%Z | None => True end ->
  waitlist_entries w t limit
  = Ok (map entry_of_row (order_by_created_at_desc t)).
Proof.
  unfold waitlist_entries. intros -> H. destruct limit as [n|]; [|reflexivity].
  apply Z.ltb_ge in H. now rewrite H.
Qed.

Lemma entries_carry_rows (rows : list row) :
  carries (map entry_of_row rows) rows.
Proof.
  unfold carries. rewrite !map_map. repeat split; apply map_ext; reflexivity.
Qed.

(** C6, as stated, fails on a limit of [2^63]: the listing raises where
    the claim has it return at most [limit] rows, and on the route the
    exception leaves [do_GET]. *)
Lemma entries_limit_out_of_range_counterexample :
  waitlist_entries quiet_world five_rows (Some (2 ^ 63)%Z)
  = Raise OverflowError
  /\ do_GET quiet_world five_rows
       (mkRequest GET "/api/waitlist/entries?limit=9223372036854775808"
          (Url "/api/waitlist/entries" [("limit", ["9223372036854775808"])])
          None None JSONDecodeError)
     = Unhandled OverflowError.
Proof. split; vm_compute; reflexivity. Qed.

(** C6, amended. The listing answers the rows of the table newest first,
    each as its name, email and time of creation: all of them when the
    limit is absent or not positive, and otherwise, for a limit below
    [2^63], the [limit] newest ones (all, when there are fewer).  On
    [GET /api/waitlist/entries] a [limit] parameter that is not a positive
    integer is dropped and every row is returned. *)
Theorem entries_newest_first_capped (w : world) (t : table) (limit : option Z) :
  entries_fault w = None ->
  match limit with Some n => (n < 2 ^ 63)%Z | None => True end ->
  exists rows es,
    waitlist_entries w t limit = Ok es
    /\ carries es rows
    /\ newest_first rows
    /\ (exists rest, Permutation (rows ++ rest) t /\ newest_first (rows ++ rest))
    /\ match limit with
       | Some n =>
           if (0 <? n)%Z
           then List.length rows = Nat.min (Z.to_nat n) (List.length t)
           else Permutation rows t
       | None => Permutation rows t
       end
    /\ exists every all_entries,
         Permutation every t /\ newest_first every
         /\ carries all_entries every
         /\ forall req,
              count_fault w = None ->
              Py.rstrip_char "/" (url_path req) = "/api/waitlist/entries" ->
              query_get (url_query req) "format" = None ->
              limit_param_not_positive (url_query req) ->
              exists r,
                do_GET w t req = Sent r
                /\ status r = 200%Z
                /\ body r
                   = JsonBody
                       [("entries", JEntries all_entries);
                        ("count", JInt (Z.of_nat (List.length t)));
                        ("limit", JNull)].
Proof.
  intros Hf Hb.
  assert (Hall : forall rows, rows = order_by_created_at_desc t ->
            newest_first rows
            /\ (exists rest, Permutation (rows ++ rest) t
                             /\ newest_first (rows ++ rest))
            /\ Permutation rows t).
  { intros rows ->. split; [apply order_by_sorted|]. split; [|apply order_by_perm].
    exists []. rewrite app_nil_r. split; [apply order_by_perm | apply order_by_sorted]. }
  assert (Hget : exists every all_entries,
            Permutation every t /\ newest_first every
            /\ carries all_entries every
            /\ forall req,
                 count_fault w = None ->
                 Py.rstrip_char "/" (url_path req) = "/api/waitlist/entries" ->
                 query_get (url_query req) "format" = None ->
                 limit_param_not_positive (url_query req) ->
                 exists r,
                   do_GET w t req = Sent r
                   /\ status r = 200%Z
                   /\ body r
                      = JsonBody
                          [("entries", JEntries all_entries);
                           ("count", JInt (Z.of_nat (List.length t)));
                           ("limit", JNull)]).
  { exists (order_by_created_at_desc t),
           (map entry_of_row (order_by_created_at_desc t)).
    split; [apply order_by_perm|]. split; [apply order_by_sorted|].
    split; [apply entries_carry_rows|].
    intros req Hc Hp Hfmt Hlim.
    rewrite (do_GET_routed w t req _ Hp) by discriminate.
    unfold route_GET. rewrite Hp. simpl.
    rewrite (limit_ignored _ Hlim), (entries_all w t None Hf I).
    unfold format_of_query, waitlist_count. rewrite Hfmt, Hc. simpl.
    eexists. split; [reflexivity|]. split; reflexivity. }
  unfold waitlist_entries. rewrite Hf.
  destruct limit as [n|].
  - destruct (0 <? n)%Z eqn:Hn.
    + apply Z.ltb_lt in Hb. rewrite Hb.
      exists (firstn (Z.to_nat n) (order_by_created_at_desc t)).
      eexists. split; [reflexivity|].
      split; [apply entries_carry_rows|].
      split; [apply firstn_sorted, order_by_sorted|].
      split.
      * exists (skipn (Z.to_nat n) (order_by_created_at_desc t)).
        rewrite firstn_skipn. split; [apply order_by_perm | apply order_by_sorted].
      * split; [|exact Hget]. now rewrite length_firstn, order_by_length.
    + exists (order_by_created_at_desc t). eexists.
      split; [reflexivity|]. split; [apply entries_carry_rows|].
      destruct (Hall _ eq_refl) as (H1 & H2 & H3). auto.
  - exists (order_by_created_at_desc t). eexists.
    split; [reflexivity|]. split; [apply entries_carry_rows|].
    destruct (Hall _ eq_refl) as (H1 & H2 & H3). auto.
Qed.

Lemma entries_newest_first_capped_witness :
  exists es,
    waitlist_entries quiet_world five_rows (Some 2%Z) = Ok es
    /\ map name es = ["Eli"; "Dee"].
Proof.
  destruct (entries_newest_first_capped quiet_world five_rows (Some 2%Z))
    as (rows & es & E & _ & _ & _ & _ & _).
  - reflexivity.
  - reflexivity.
  - exists es. split; [exact E|].
    vm_compute in E. injection E as <-. reflexivity.
Defined.

(** ** CSV *)

Section Csv.

Lemma replace_doubled (f : string) :
  Py.replace_char dq (String dq (String dq EmptyString)) f = doubled f.
Proof.
  induction f as [|c f IH]; simpl; [reflexivity|].
  rewrite IH. destruct (Ascii.eqb c dq); reflexivity.
Qed.

Lemma doubled_comma (f : string) :
  Py.contains_char "," (doubled f) = Py.contains_char "," f.
Proof.
  induction f as [|c f IH]; simpl; [reflexivity|].
  destruct (Ascii.eqb c dq) eqn:E; simpl; rewrite IH; [|reflexivity].
  apply Ascii.eqb_eq in E as ->. reflexivity.
Qed.

Lemma doubled_quote (f : string) :
  Py.contains_char dq (doubled f) = Py.contains_char dq f.
Proof.
  induction f as [|c f IH]; simpl; [reflexivity|].
  destruct (Ascii.eqb c dq) eqn:E; simpl; [reflexivity|].
  now rewrite E, IH.
Qed.

Lemma doubled_bare (f : string) :
  Py.contains_char dq f = false -> doubled f = f.
Proof.
  induction f as [|c f IH]; simpl; [reflexivity|].
  destruct (Ascii.eqb c dq); simpl; [discriminate|].
  intros H. now rewrite IH.
Qed.

Lemma csv_field_quoted (f : string) : csv_field f = quoted_field f.
Proof.
  unfold csv_field, quoted_field, needs_quotes.
  rewrite replace_doubled, doubled_comma, doubled_quote.
  destruct (Py.contains_char "," f); simpl; [reflexivity|].
  destruct (Py.contains_char dq f) eqn:Q; [reflexivity|].
  now apply doubled_bare.
Qed.

Lemma csv_line_quoted (e : entry) : csv_line e = quoted_line e.
Proof.
  unfold csv_line, quoted_line. simpl. now rewrite !csv_field_quoted.
Qed.

Lemma csv_lines_quoted (entries : list entry) :
  map csv_line entries = map quoted_line entries.
Proof. apply map_ext, csv_line_quoted. Qed.

End Csv.

(** ** Cross-origin headers *)

Section Cors.

Ltac branch :=
  match goal with
  | |- context [if ?b then _ else _] => destruct b
  | |- context [match ?x with _ => _ end] =>
      lazymatch type of x with
      | outcome => fail
      | result _ => fail
      | _ => destruct x
      end
  end; simpl.

Lemma allowed_origin_cases (req : request) :
  _allowed_origin req = origin_unless_empty_or_null req.
Proof.
  unfold _allowed_origin, origin_unless_empty_or_null.
  destruct (origin req) as [[|c o]|]; reflexivity.
Qed.

Lemma do_GET_allows w t req : allows (_allowed_origin req) (do_GET w t req).
Proof.
  unfold do_GET. destruct (url req) as [|p q]; [exact I|].
  unfold route_GET, waitlist_count, waitlist_entries, format_of_query.
  simpl; repeat branch; first [exact I | reflexivity].
Qed.

Lemma do_POST_allows w t req :
  allows (_allowed_origin req) (fst (do_POST w t req)).
Proof.
  unfold do_POST, waitlist_count, insert_waitlist_record.
  simpl; repeat branch; first [exact I | reflexivity].
Qed.

End Cors.

(** C8, as stated, fails on a request whose [Origin] header is present and
    empty: the words of the specification ask for the empty origin, the
    handler allows ["*"].  It fails as well on a request with a method the
    class does not define: the base class answers 501 and sends no
    [Access-Control-Allow-Origin] header at all. *)
Lemma cors_empty_origin_counterexample :
  origin preflight_with_empty_origin = Some EmptyString
  /\ origin_unless_absent_or_null preflight_with_empty_origin = EmptyString
  /\ (exists r,
        fst (handle quiet_world [] preflight_with_empty_origin) = Sent r
        /\ header "Access-Control-Allow-Origin" (headers r) = Some "*"
        /\ header "Access-Control-Allow-Origin" (headers r)
           <> Some (origin_unless_absent_or_null preflight_with_empty_origin))
  /\ exists r,
       fst (handle_one_request "Unsupported method ('PUT')" quiet_world []
              "PUT" (get_request "/api/waitlist"))
       = Sent r
       /\ status r = 501%Z
       /\ origin_unless_absent_or_null (get_request "/api/waitlist") = "*"
       /\ header "Access-Control-Allow-Origin" (headers r) = None.
Proof.
  repeat split.
  - eexists. split; [reflexivity|]. split; [reflexivity|]. discriminate.
  - eexists. repeat split.
Qed.

(** C8, amended. Every response to a request whose method is GET, POST or
    OPTIONS, on every route, allows the [Origin] header of the request as
    it stands when the header is present, not empty and not ["null"], and
    allows ["*"] when it is absent, empty or ["null"].  A request with any
    other method is answered 501 by the base class, without an
    [Access-Control-Allow-Origin] header. *)
Theorem cors_origin_echoed_or_star (page : string) (w : world) (t : table)
  (cmd : string) (req : request) :
  allows (origin_unless_empty_or_null req) (fst (handle w t req))
  /\ (method_of cmd <> None
      <-> cmd = "GET" \/ cmd = "POST" \/ cmd = "OPTIONS")
  /\ match method_of cmd with
     | Some _ =>
         allows (origin_unless_empty_or_null req)
           (fst (handle_one_request page w t cmd req))
     | None =>
         exists r,
           fst (handle_one_request page w t cmd req) = Sent r
           /\ status r = 501%Z
           /\ header "Access-Control-Allow-Origin" (headers r) = None
     end.
Proof.
  assert (A : forall r, allows (origin_unless_empty_or_null r)
                          (fst (handle w t r))).
  { intros r. rewrite <- allowed_origin_cases. unfold handle.
    destruct (command r); simpl.
    - apply do_GET_allows.
    - apply do_POST_allows.
    - reflexivity. }
  split; [apply A|]. split.
  - unfold method_of.
    destruct (String.eqb_spec cmd "GET") as [->|N1]; [split; [auto | discriminate]|].
    destruct (String.eqb_spec cmd "POST") as [->|N2]; [split; [auto | discriminate]|].
    destruct (String.eqb_spec cmd "OPTIONS") as [->|N3]; [split; [auto | discriminate]|].
    split; [intros H; now elim H | intros [E|[E|E]]; contradiction].
  - unfold handle_one_request. destruct (method_of cmd) as [m|].
    + exact (A (with_command m req)).
    + eexists. repeat split.
Qed.

(** ** Errors that leave the handler *)

(** C9 fails on the code: [do_GET] has no handler around its storage
    calls.  When the backend fails the count or the listing, the
    exception leaves [do_GET] and no response is sent, on
    [GET /api/waitlist] and on [GET /api/waitlist/entries] alike. *)
Theorem get_storage_error_unhandled :
  handle failing_world [] (get_request "/api/waitlist")
  = (Unhandled (DatabaseError "database is locked"), [])
  /\ handle failing_world [] (get_request "/api/waitlist/entries")
     = (Unhandled (DatabaseError "database is locked"), []).
Proof. split; reflexivity. Qed.

(** C2 fails on the code.  A body that is not UTF-8 is not JSON, yet
    [decode] raises before [json.loads] runs and the handler catches
    [JSONDecodeError] only; a JSON body that is not an object has no
    [get]; a length header made of a superscript digit passes [isdigit]
    and is refused by [int].  In the three cases the exception leaves
    [do_POST] and neither 400 nor 411 is sent. *)
Theorem post_malformed_request_unhandled :
  do_POST quiet_world [] (post_request "1" UnicodeError)
  = (Unhandled UnicodeDecodeError, [])
  /\ do_POST quiet_world [] (post_request "2" (Loaded LOther))
     = (Unhandled AttributeError, [])
  /\ do_POST quiet_world []
       (post_request (String "178"%char EmptyString) JSONDecodeError)
     = (Unhandled ValueError, []).
Proof. repeat split. Qed.

(** ** Signing up *)

Section Signup.

Lemma forallb_string_impl (p q : ascii -> bool) (s : string) :
  (forall c, p c = true -> q c = true) ->
  Py.forallb_string p s = true -> Py.forallb_string q s = true.
Proof.
  intros Hpq. induction s as [|c s IH]; simpl; [reflexivity|].
  intros H. apply andb_true_iff in H as [Hc Hs].
  now rewrite (Hpq c Hc), IH.
Qed.

Lemma isdecimal_not_int_space (c : ascii) :
  Py.isdecimal c = true -> Py.int_space c = false.
Proof. destruct c as [[] [] [] [] [] [] [] []]; vm_compute; congruence. Qed.

Lemma decimal_int_rstrip (s : string) :
  Py.forallb_string Py.isdecimal s = true -> Py.int_rstrip s = s.
Proof.
  induction s as [|c s IH]; simpl; [reflexivity|].
  intros H. apply andb_true_iff in H as [Hc Hs].
  rewrite (IH Hs). destruct s; [|reflexivity].
  now rewrite (isdecimal_not_int_space c Hc).
Qed.

Lemma decimal_int_lstrip (s : string) :
  Py.forallb_string Py.isdecimal s = true -> Py.int_lstrip s = s.
Proof.
  destruct s as [|c s]; simpl; [reflexivity|].
  intros H. apply andb_true_iff in H as [Hc _].
  now rewrite (isdecimal_not_int_space c Hc).
Qed.

Lemma digit_count_le (s : string) :
  (Py.digit_count s <= String.length s)%nat.
Proof.
  induction s as [|c s IH]; simpl; [lia|].
  destruct (Py.isdecimal c); lia.
Qed.

Lemma int_digits_decimal (s : string) (acc : Z) (prev : bool) :
  Py.forallb_string Py.isdecimal s = true ->
  s <> EmptyString \/ prev = true ->
  exists n, Py.int_digits acc prev s = Some n.
Proof.
  revert acc prev. induction s as [|c s IH]; intros acc prev H Hne; simpl.
  - destruct Hne as [Hne | ->]; [now elim Hne | now eexists].
  - simpl in H. apply andb_true_iff in H as [Hc Hs]. rewrite Hc.
    apply IH; auto.
Qed.

(** A text that starts with a digit has no sign. *)
Lemma no_sign (c : ascii) (d : string) :
  Py.isdecimal c = true ->
  match String c d with
  | String "-" d' => (true, d')
  | String "+" d' => (false, d')
  | x => (false, x)
  end = (false, String c d).
Proof.
  intros Hc.
  destruct c as [[] [] [] [] [] [] [] []]; try discriminate Hc; reflexivity.
Qed.

Lemma int_unsigned (h : string) :
  h <> EmptyString ->
  Py.forallb_string Py.isdecimal h = true ->
  Py.int h
  = if (Py.max_str_digits <? Py.digit_count h)%nat then None
    else Py.int_digits 0 false h.
Proof.
  intros Hne Hall. unfold Py.int.
  rewrite (decimal_int_lstrip h Hall), (decimal_int_rstrip h Hall).
  destruct h as [|c d]; [now elim Hne|].
  rewrite no_sign; [reflexivity|].
  simpl in Hall. now apply andb_true_iff in Hall as [Hc _].
Qed.

Lemma ascii_digits_pass (h : string) :
  ascii_digits h ->
  Py.isdigit h = true /\ exists n, Py.int h = Some n.
Proof.
  intros (Hne & Hall & Hlen). split.
  - destruct h as [|c h]; [now elim Hne|]. unfold Py.isdigit.
    eapply forallb_string_impl; [apply isdecimal_isdigit_char | exact Hall].
  - rewrite (int_unsigned h Hne Hall).
    pose proof (digit_count_le h) as Hd.
    destruct (Nat.ltb_spec Py.max_str_digits (Py.digit_count h)); [lia|].
    apply int_digits_decimal; [exact Hall | now left].
Qed.

Lemma unique_violation_recognised (k : backend) (e : string) :
  Py.contains "unique" (Py.lower (unique_violation k e))
  || Py.contains "duplicate" (Py.lower (unique_violation k e)) = true.
Proof. destruct k; reflexivity. Qed.

Lemma email_taken_In (t : table) (e : string) :
  email_taken t e = true <-> In e (map row_email t).
Proof.
  unfold email_taken. rewrite existsb_exists, in_map_iff.
  split; intros (r & H1 & H2).
  - apply String.eqb_eq in H2. eauto.
  - exists r. split; [exact H2 | now apply String.eqb_eq].
Qed.

Lemma email_taken_after_insert (t : table) (n e ts : string) :
  email_taken (t ++ [mkRow n e ts])%list e = true.
Proof.
  apply email_taken_In. rewrite map_app, in_app_iff. right. now left.
Qed.

(** What [do_POST] does once the checks are passed. *)
Lemma do_POST_submitted (w : world) (t : table) (req : request) (n e : string) :
  submits req n e ->
  do_POST w t req
  = match insert_waitlist_record w t n e with
    | Raise err =>
        let error_msg :=
          Py.lower (match err with
                    | DatabaseError msg => msg
                    | _ => EmptyString
                    end) in
        if Py.contains "unique" error_msg || Py.contains "duplicate" error_msg
        then (finish (c <- waitlist_count w t ;;
                      Ok (conflict req (Z.to_nat c))), t)
        else (Sent (_json_response req
                      [("error", JStr "We hit a snag saving your request.")]
                      500), t)
    | Ok t' =>
        (finish (c <- waitlist_count w t' ;;
                 Ok (created req e (Z.to_nat c))), t')
    end.
Proof.
  intros (Hp & h & payload & Hl & Hd & Hb & Hn & He).
  destruct (ascii_digits_pass h Hd) as (Hdig & k & Hint).
  unfold do_POST. rewrite Hp, Hl. simpl.
  destruct h as [|c h]; [destruct Hd as [Hd _]; now elim Hd|].
  rewrite Hdig, Hint, Hb, Hn, He. simpl.
  unfold waitlist_count, conflict, created.
  destruct (insert_waitlist_record w t n e) as [t'|err];
    destruct (count_fault w); simpl; rewrite ?Nat2Z.id; reflexivity.
Qed.

End Signup.

(** On a POST to the waitlist whose body is JSON text for an object, or is
    text that is not JSON, the checks come in the order length header,
    body, name, email. *)
Lemma post_checks_in_order (w : world) (t : table) (req : request) :
  Py.rstrip_char "/" (path req) = "/api/waitlist" ->
  (content_length req = None ->
   do_POST w t req
   = (Sent (_json_response req [("error", JStr "Missing Content-Length")] 411), t))
  /\ (forall h, content_length req = Some h -> Py.isdigit h = false ->
      do_POST w t req
      = (Sent (_json_response req [("error", JStr "Missing Content-Length")] 411), t))
  /\ (forall h, content_length req = Some h -> ascii_digits h ->
      (body_parsed req = JSONDecodeError ->
       do_POST w t req
       = (Sent (_json_response req [("error", JStr "Invalid JSON payload")] 400), t))
      /\ (forall payload, body_parsed req = Loaded (LDict payload) ->
          (_sanitize_name (dict_get payload "name") = None ->
           do_POST w t req
           = (Sent (_json_response req
                [("error", JStr "Please share your name so we can personalize the rollout.")]
                400), t))
          /\ (_sanitize_name (dict_get payload "name") <> None ->
              _sanitize_email (dict_get payload "email") = None ->
              do_POST w t req
              = (Sent (_json_response req
                   [("error", JStr "A valid email is required to join the waitlist.")]
                   400), t)))).
Proof.
  intros Hp. unfold do_POST. rewrite Hp. simpl. split; [|split].
  - now intros ->.
  - intros h -> ->. simpl. now rewrite orb_true_r.
  - intros h -> Hd. destruct (ascii_digits_pass h Hd) as (Hdig & k & Hint).
    rewrite Hdig, Hint.
    destruct h as [|c h]; [destruct Hd as [Hd _]; now elim Hd|]. simpl.
    split; [now intros ->|]. intros payload ->. split.
    + now intros ->.
    + intros Hn ->. destruct (_sanitize_name (dict_get payload "name"));
        [reflexivity | now elim Hn].
Qed.

Section Conflict.

Lemma taken_conflicts (w : world) (t : table) (req : request) (n e : string) :
  working w -> submits req n e -> email_taken t e = true ->
  do_POST w t req = (Sent (conflict req (List.length t)), t).
Proof.
  intros [Hc Hi] Hs Ht. rewrite (do_POST_submitted w t req n e Hs).
  unfold insert_waitlist_record. rewrite Hi, Ht.
  cbv zeta. rewrite unique_violation_recognised.
  unfold waitlist_count. rewrite Hc. simpl. now rewrite Nat2Z.id.
Qed.

Lemma fresh_created (w : world) (t : table) (req : request) (n e : string) :
  working w -> submits req n e -> email_taken t e = false ->
  do_POST w t req
  = (Sent (created req e (S (List.length t))), (t ++ [mkRow n e (now w)])%list).
Proof.
  intros [Hc Hi] Hs Ht. rewrite (do_POST_submitted w t req n e Hs).
  unfold insert_waitlist_record. rewrite Hi, Ht.
  unfold waitlist_count. rewrite Hc. simpl.
  rewrite Nat2Z.id, length_app. simpl. now rewrite Nat.add_1_r.
Qed.

Lemma resubmission_conflicts (w w' : world) (t : table) (req req' : request)
  (n n' e : string) :
  working w -> working w' -> submits req n e -> submits req' n' e ->
  email_taken t e = false ->
  exists t',
    do_POST w t req = (Sent (created req e (List.length t')), t')
    /\ List.length t' = S (List.length t)
    /\ do_POST w' t' req' = (Sent (conflict req' (List.length t')), t').
Proof.
  intros Hw Hw' Hs Hs' Ht. exists (t ++ [mkRow n e (now w)])%list.
  assert (L : List.length (t ++ [mkRow n e (now w)])%list = S (List.length t)).
  { rewrite length_app. simpl. apply Nat.add_1_r. }
  rewrite L. split; [now apply fresh_created|]. split; [reflexivity|].
  rewrite <- L. eapply taken_conflicts; eauto. apply email_taken_after_insert.
Qed.

End Conflict.


Lemma signup_submits (nm em : pyval) (n e : string) :
  _sanitize_name nm = Some n -> _sanitize_email em = Some e ->
  submits (signup nm em) n e.
Proof.
  intros Hn He. split; [reflexivity|].
  exists "64", [("name", nm); ("email", em)].
  repeat split; try assumption; [discriminate|].
  unfold Py.max_str_digits. simpl. lia.
Qed.



(** C5. Normalizing an email twice is normalizing it once: the answer of
    [_sanitize_email] is accepted by [_sanitize_email] and answered as it
    is.  ["  Foo@BAR.com "] and ["foo@bar.com"] have the same normal form,
    and a signup with a value follows a signup with its normal form, or
    the reverse, into the 409 answer. *)
Theorem email_normalization_idempotent (v : pyval) (y : string) :
  _sanitize_email v = Some y ->
  _sanitize_email (PStr y) = Some y
  /\ _sanitize_email (PStr "  Foo@BAR.com ") = Some "foo@bar.com"
  /\ _sanitize_email (PStr "foo@bar.com") = Some "foo@bar.com"
  /\ forall w w' t nm nm' n n',
       working w -> working w' ->
       _sanitize_name nm = Some n -> _sanitize_name nm' = Some n' ->
       email_taken t y = false ->
       (exists t',
          fst (do_POST w t (signup nm v))
          = Sent (created (signup nm v) y (List.length t'))
          /\ snd (do_POST w t (signup nm v)) = t'
          /\ do_POST w' t' (signup nm' (PStr y))
             = (Sent (conflict (signup nm' (PStr y)) (List.length t')), t'))
       /\ (exists t',
             fst (do_POST w t (signup nm (PStr y)))
             = Sent (created (signup nm (PStr y)) y (List.length t'))
             /\ snd (do_POST w t (signup nm (PStr y))) = t'
             /\ do_POST w' t' (signup nm' v)
                = (Sent (conflict (signup nm' v) (List.length t')), t')).
Proof.
  intros Hv.
  assert (Hy : _sanitize_email (PStr y) = Some y)
    by exact (sanitize_email_fixed v y Hv).
  split; [exact Hy|]. split; [reflexivity|]. split; [reflexivity|].
  intros w w' t nm nm' n n' Hw Hw' Hn Hn' Ht. split.
  - destruct (resubmission_conflicts w w' t (signup nm v) (signup nm' (PStr y))
                n n' y Hw Hw') as (t' & H1 & _ & H3);
      auto using signup_submits.
    exists t'. rewrite H1. auto.
  - destruct (resubmission_conflicts w w' t (signup nm (PStr y)) (signup nm' v)
                n n' y Hw Hw') as (t' & H1 & _ & H3);
      auto using signup_submits.
    exists t'. rewrite H1. auto.
Qed.

Lemma email_normalization_idempotent_witness :
  _sanitize_email (PStr "foo@bar.com") = Some "foo@bar.com".
Proof.
  apply (email_normalization_idempotent (PStr "  Foo@BAR.com ") "foo@bar.com").
  reflexivity.
Defined.

(** ** The scenarios of the specification *)

Section Scenarios.

Let entries_request (limit : string) : request :=
  mkRequest GET "/api/waitlist/entries"
    (Url "/api/waitlist/entries" [("limit", [limit])])
    None None JSONDecodeError.

Example limit_two_of_five :
  do_GET quiet_world five_rows (entries_request "2")
  = Sent (_json_response (entries_request "2")
            [("entries",
              JEntries [mkEntry "Eli" "eli@example.org" "2024-05-01 09:00:09";
                        mkEntry "Dee" "dee@example.org" "2024-05-01 09:00:07"]);
             ("count", JInt 5); ("limit", JInt 2)] 200).
Proof. reflexivity. Qed.

Example limit_not_a_number :
  limit_of_query [("limit", ["two"])] = None
  /\ limit_of_query [("limit", ["0"])] = None
  /\ limit_of_query [("limit", ["-3"])] = None
  /\ limit_of_query [("limit", ["2"])] = Some 2%Z.
Proof. repeat split. Qed.

Example int_white_space :
  Py.int (String "028" "3") = None
  /\ Py.strip (String "028" "3") = "3"
  /\ Py.int (String "160" " 3 ") = Some 3%Z
  /\ Py.int "1_000" = Some 1000%Z
  /\ Py.int "+" = None.
Proof. repeat split. Qed.

Example csv_of_two :
  csv_data [mkEntry "Doe, Jo" "jo@example.org" "2024-05-01 09:00:00";
            mkEntry "Al" "al@example.org" "2024-04-30 09:00:00"]
  = "name,email,created_at" ++ newline
    ++ String dq ("Doe, Jo" ++ String dq ",jo@example.org,2024-05-01 09:00:00")
    ++ newline ++ "Al,al@example.org,2024-04-30 09:00:00".
Proof. reflexivity. Qed.

Example unknown_path_not_found :
  status_of (do_GET quiet_world [] (get_request "/foo")) = Some 404%Z
  /\ status_of (fst (do_POST quiet_world [] (get_request "/foo"))) = Some 404%Z
  /\ status_of (fst (handle quiet_world [] preflight_with_empty_origin))
     = Some 204%Z.
Proof. repeat split. Qed.

Example short_name_rejected :
  status_of (fst (do_POST quiet_world [] (signup (PStr "A") (PStr "a@b.c"))))
  = Some 400%Z
  /\ status_of (fst (do_POST quiet_world [] (signup (PStr "Al") (PStr "a@b.c"))))
     = Some 201%Z
  /\ status_of (fst (do_POST quiet_world [] (signup (PStr "A") (PStr "nope"))))
     = Some 400%Z.
Proof. repeat split. Qed.

End Scenarios.

(** * Further properties *)

(** ** What a POST does to the table *)

Section PostCases.

(** Either the table is the one before and the answer, when there is one,
    is one of the refusals, or the checks were passed, the email was free,
    the row was added at the end and the answer is 201 (or the exception
    of the count that follows the insert). *)
Lemma do_POST_cases (w : world) (t : table) (req : request) :
  (snd (do_POST w t req) = t
   /\ match fst (do_POST w t req) with
      | Sent r => In (status r) [404; 411; 400; 409; 500]%Z
      | Unhandled _ => True
      end)
  \/ (exists payload n e,
        body_parsed req = Loaded (LDict payload)
        /\ _sanitize_name (dict_get payload "name") = Some n
        /\ _sanitize_email (dict_get payload "email") = Some e
        /\ insert_fault w = None
        /\ email_taken t e = false
        /\ snd (do_POST w t req) = (t ++ [mkRow n e (now w)])%list
        /\ fst (do_POST w t req)
           = match count_fault w with
             | None => Sent (created req e (S (List.length t)))
             | Some msg => Unhandled (DatabaseError msg)
             end).
Proof.
  unfold do_POST.
  destruct (negb (Py.rstrip_char "/" (path req) =? "/api/waitlist")%string);
    [left; simpl; auto|].
  destruct (content_length req) as [h|]; [|left; simpl; auto].
  destruct (match h with EmptyString => true | _ => false end
            || negb (Py.isdigit h)); [left; simpl; auto|].
  destruct (Py.int h); [|left; simpl; auto].
  destruct (body_parsed req) as [| | | |[payload|]] eqn:Hb;
    try (left; simpl; now auto).
  destruct (_sanitize_name (dict_get payload "name")) as [n|] eqn:Hn;
    [|left; simpl; auto 6].
  destruct (_sanitize_email (dict_get payload "email")) as [e|] eqn:He;
    [|left; simpl; auto 6].
  unfold insert_waitlist_record, waitlist_count.
  destruct (insert_fault w) as [msg|] eqn:Hi.
  - left. cbv zeta.
    destruct (Py.contains "unique" (Py.lower msg)
              || Py.contains "duplicate" (Py.lower msg));
      destruct (count_fault w); simpl; auto 8.
  - destruct (email_taken t e) eqn:Ht.
    + left. cbv zeta. rewrite unique_violation_recognised.
      destruct (count_fault w); simpl; auto 8.
    + right. exists payload, n, e. repeat split; try assumption.
      destruct (count_fault w); simpl; [reflexivity|].
      unfold created. rewrite length_app. simpl.
      now rewrite Nat.add_1_r.
Qed.

Lemma sanitize_name_fixed (v : pyval) (n : string) :
  _sanitize_name v = Some n -> _sanitize_name (PStr n) = Some n.
Proof.
  intros H.
  assert (E : (if (2 <=? String.length (Py.strip (py_str v)))%nat
               then Some (Py.strip (py_str v)) else None) = Some n)
    by (destruct v; [discriminate | exact H ..]).
  destruct (2 <=? String.length (Py.strip (py_str v)))%nat eqn:L;
    [|discriminate].
  injection E as <-. rewrite sanitize_name_text, strip_idem. now rewrite L.
Qed.

Lemma sanitize_email_shape (v : pyval) (y : string) :
  _sanitize_email v = Some y ->
  y = Py.lower (Py.strip (py_str v)) /\ email_shape y.
Proof.
  intros H. apply sanitize_email_some in H as (_ & E & M).
  split; [exact E|]. subst y.
  now apply (email_pattern_shape _ (candidate_last_char (py_str v))).
Qed.

Lemma email_free_not_in (t : table) (e : string) :
  email_taken t e = false -> ~ In e (map row_email t).
Proof. intros H Hin. apply email_taken_In in Hin. congruence. Qed.

End PostCases.

Section Runs.

Lemma handle_table (w : world) (t : table) (req : request) :
  snd (handle w t req) = t
  \/ (command req = POST
      /\ exists n e,
           _sanitize_name (PStr n) = Some n
           /\ _sanitize_email (PStr e) = Some e
           /\ email_taken t e = false
           /\ snd (handle w t req) = (t ++ [mkRow n e (now w)])%list).
Proof.
  unfold handle. destruct (command req); simpl; try (now left).
  destruct (do_POST_cases w t req) as [[H _] | (p & n & e & _ & Hn & He & _ & Ht & Hs & _)];
    [now left | right].
  split; [reflexivity|]. exists n, e.
  repeat split; try assumption.
  - exact (sanitize_name_fixed _ _ Hn).
  - exact (sanitize_email_fixed _ _ He).
Qed.

Lemma run_server_step (w : world) (req : request) (t : table)
  (rest : list (world * request)) :
  run_server t ((w, req) :: rest)
  = (fst (handle w t req) :: fst (run_server (snd (handle w t req)) rest),
     snd (run_server (snd (handle w t req)) rest)).
Proof.
  simpl. destruct (handle w t req) as [out t'].
  simpl. now destruct (run_server t' rest).
Qed.

Lemma run_server_keeps (P : table -> Prop) :
  (forall w t req, P t -> P (snd (handle w t req))) ->
  forall reqs t, P t -> P (snd (run_server t reqs)).
Proof.
  intros Hstep. induction reqs as [|[w req] rest IH]; intros t Ht.
  - exact Ht.
  - rewrite run_server_step. simpl. apply IH, Hstep, Ht.
Qed.

Lemma handle_unique (w : world) (t : table) (req : request) :
  unique_emails t -> unique_emails (snd (handle w t req)).
Proof.
  intros Hu.
  destruct (handle_table w t req) as [-> | (_ & n & e & _ & _ & Ht & ->)];
    [exact Hu|].
  unfold unique_emails. rewrite map_app. simpl.
  apply NoDup_app; [exact Hu | repeat constructor; intros [] |].
  intros x Hx [E | []]. subst x. now apply (email_free_not_in t e).
Qed.

Lemma handle_sanitary (w : world) (t : table) (req : request) :
  sanitary t -> sanitary (snd (handle w t req)).
Proof.
  intros Hs.
  destruct (handle_table w t req) as [-> | (_ & n & e & Hn & He & _ & ->)];
    [exact Hs|].
  apply Forall_app. split; [exact Hs|]. repeat constructor; assumption.
Qed.

End Runs.

(** X1. Whatever requests are served, in whatever state of the backend, no
    two rows of the table come to hold the same email. *)
Theorem run_server_keeps_emails_unique (reqs : list (world * request))
  (t : table) :
  unique_emails t -> unique_emails (snd (run_server t reqs)).
Proof. apply (run_server_keeps unique_emails handle_unique). Qed.

Lemma run_server_keeps_emails_unique_witness :
  unique_emails (snd (run_server (init_db None) morning_run)).
Proof. apply run_server_keeps_emails_unique. constructor. Defined.

(** X2. Whatever requests are served, every row of the table holds a name
    and an email that the sanitizers answer unchanged: a trimmed name of
    two characters or more, and a trimmed, lower-case email of the shape
    of the pattern. *)
Theorem run_server_keeps_rows_sanitary (reqs : list (world * request))
  (t : table) :
  sanitary t ->
  sanitary (snd (run_server t reqs))
  /\ forall r, In r (snd (run_server t reqs)) ->
       (2 <= String.length (row_name r))%nat
       /\ Py.strip (row_name r) = row_name r
       /\ Py.lower (Py.strip (row_email r)) = row_email r
       /\ email_shape (row_email r).
Proof.
  intros Hs.
  assert (H : sanitary (snd (run_server t reqs)))
    by (apply (run_server_keeps sanitary handle_sanitary); exact Hs).
  split; [exact H|]. intros r Hr.
  unfold sanitary in H. rewrite Forall_forall in H.
  destruct (H r Hr) as [Hn He].
  rewrite sanitize_name_text in Hn.
  destruct (2 <=? String.length (Py.strip (row_name r)))%nat eqn:L;
    [|discriminate].
  injection Hn as Hn. apply Nat.leb_le in L. rewrite Hn in L.
  apply sanitize_email_shape in He as [E Sh]. simpl in E.
  repeat split; auto.
Qed.

Lemma run_server_keeps_rows_sanitary_witness :
  sanitary (snd (run_server (init_db None) morning_run)).
Proof. apply run_server_keeps_rows_sanitary. constructor. Defined.

Section Statuses.

Ltac branch :=
  match goal with
  | |- context [if ?b then _ else _] => destruct b
  | |- context [match ?x with _ => _ end] =>
      lazymatch type of x with
      | outcome => fail
      | result _ => fail
      | _ => destruct x
      end
  end; simpl.

Lemma do_GET_status (w : world) (t : table) (req : request) :
  match do_GET w t req with
  | Sent r => In (status r) [200; 404]%Z
  | Unhandled _ => True
  end.
Proof.
  unfold do_GET. destruct (url req) as [|p q]; [exact I|].
  unfold route_GET, waitlist_count, waitlist_entries, format_of_query.
  simpl; repeat branch; simpl; auto.
Qed.

Lemma do_POST_status (w : world) (t : table) (req : request) :
  match fst (do_POST w t req) with
  | Sent r => In (status r) [201; 400; 404; 409; 411; 500]%Z
  | Unhandled _ => True
  end.
Proof.
  destruct (do_POST_cases w t req)
    as [[_ H] | (p & n & e & _ & _ & _ & _ & _ & _ & ->)].
  - destruct (fst (do_POST w t req)) as [r|]; [|exact I].
    simpl in *. intuition.
  - destruct (count_fault w); simpl; auto.
Qed.

Lemma refusal_not_created (r : response) :
  In (status r) [404; 411; 400; 409; 500]%Z -> (status r =? 201)%Z = false.
Proof.
  simpl. intros [E|[E|[E|[E|[E|[]]]]]]; rewrite <- E; reflexivity.
Qed.

(** One request: the rows it adds and the 201 it sends. *)
Lemma handle_adds (w : world) (t : table) (req : request) :
  exists added,
    snd (handle w t req) = (t ++ added)%list
    /\ (List.length added <= 1)%nat
    /\ (created_count [fst (handle w t req)] <= List.length added)%nat
    /\ (count_fault w = None ->
        created_count [fst (handle w t req)] = List.length added).
Proof.
  unfold handle. destruct (command req); simpl.
  - exists []. rewrite app_nil_r. repeat split; auto.
    + pose proof (do_GET_status w t req) as H.
      destruct (do_GET w t req) as [r|]; simpl; [|lia].
      destruct H as [E|[E|[]]]; rewrite <- E; simpl; lia.
    + intros _. pose proof (do_GET_status w t req) as H.
      destruct (do_GET w t req) as [r|]; simpl; [|lia].
      destruct H as [E|[E|[]]]; rewrite <- E; simpl; lia.
  - destruct (do_POST_cases w t req)
      as [[Hs H] | (p & n & e & _ & _ & _ & _ & _ & Hs & Hf)].
    + exists []. rewrite app_nil_r. split; [exact Hs|].
      destruct (fst (do_POST w t req)) as [r|]; simpl; auto.
      rewrite (refusal_not_created r H). simpl. auto.
    + exists [mkRow n e (now w)]. split; [exact Hs|]. rewrite Hf.
      destruct (count_fault w); simpl; repeat split; auto; discriminate.
  - exists []. rewrite app_nil_r. simpl. repeat split; auto.
Qed.

End Statuses.

(** X3. Serving never removes and never changes a row: the table after a
    run is the table before it followed by the rows added, at most one
    per request.  Each 201 answer stands for one added row; when the
    count never fails, the rows added are as many as the 201 answers. *)
Theorem run_server_only_appends (reqs : list (world * request)) (t : table) :
  exists added,
    snd (run_server t reqs) = (t ++ added)%list
    /\ (List.length added <= List.length reqs)%nat
    /\ List.length (fst (run_server t reqs)) = List.length reqs
    /\ (created_count (fst (run_server t reqs)) <= List.length added)%nat
    /\ (Forall (fun wr => count_fault (fst wr) = None) reqs ->
        created_count (fst (run_server t reqs)) = List.length added).
Proof.
  revert t. induction reqs as [|[w req] rest IH]; intros t.
  - exists []. simpl. rewrite app_nil_r. repeat split; auto.
  - rewrite run_server_step.
    destruct (handle_adds w t req) as (a1 & E1 & L1 & C1 & F1).
    destruct (IH (snd (handle w t req))) as (a2 & E2 & L2 & N2 & C2 & F2).
    exists (a1 ++ a2)%list. cbn [fst snd].
    rewrite E2, E1, <- app_assoc, length_app.
    rewrite E1 in N2, C2, F2.
    split; [reflexivity|]. split; [simpl; lia|]. split; [simpl; now rewrite N2|].
    assert (S : forall o os,
               created_count (o :: os)
               = (created_count [o] + created_count os)%nat).
    { intros [r|e] os; simpl; lia. }
    rewrite S. split; [lia|].
    intros Hall. inversion Hall as [|x l Hw Hrest]; subst.
    rewrite (F1 Hw), (F2 Hrest). reflexivity.
Qed.

(** X4. The status of an answer is one the method can give: 200 or 404 on
    a GET, 201, 400, 404, 409, 411 or 500 on a POST, 204 on OPTIONS. *)
Theorem handle_status_codes (w : world) (t : table) (req : request) :
  match fst (handle w t req) with
  | Sent r =>
      match command req with
      | GET => In (status r) [200; 404]%Z
      | POST => In (status r) [201; 400; 404; 409; 411; 500]%Z
      | OPTIONS => status r = 204%Z
      end
  | Unhandled _ => True
  end.
Proof.
  unfold handle. destruct (command req); simpl.
  - apply do_GET_status.
  - apply do_POST_status.
  - reflexivity.
Qed.

(** ** Answers of a POST and the table *)

(** X5. A POST adds a row exactly when its insert goes through.  With the
    answer 201 the table is the one before followed by one row, whose
    email was in no row and is the one the answer gives; with any other
    answer the table is the one before.  When no answer is sent the table
    is the one before, unless the exception is that of the count after
    the insert, in which case the row is there. *)
Theorem post_adds_row_exactly_on_success (w : world) (t : table)
  (req : request) :
  match fst (do_POST w t req) with
  | Sent r =>
      if (status r =? 201)%Z
      then exists n e,
             snd (do_POST w t req) = (t ++ [mkRow n e (now w)])%list
             /\ ~ In e (map row_email t)
             /\ r = created req e (S (List.length t))
      else snd (do_POST w t req) = t
  | Unhandled err =>
      snd (do_POST w t req) = t
      \/ exists msg n e,
           err = DatabaseError msg /\ count_fault w = Some msg
           /\ snd (do_POST w t req) = (t ++ [mkRow n e (now w)])%list
  end.
Proof.
  destruct (do_POST_cases w t req)
    as [[Hs H] | (p & n & e & _ & _ & _ & _ & Ht & Hs & Hf)].
  - destruct (fst (do_POST w t req)) as [r|]; [|now left].
    now rewrite (refusal_not_created r H).
  - rewrite Hf. destruct (count_fault w) as [msg|] eqn:Hc.
    + right. exists msg, n, e. auto.
    + simpl. exists n, e. repeat split; auto.
      now apply email_free_not_in.
Qed.







(** ** Routing *)

Section Routing.

Lemma rstrip_char_snoc (ch : ascii) (s : string) :
  Py.rstrip_char ch (s ++ String ch EmptyString) = Py.rstrip_char ch s.
Proof.
  induction s as [|c s IH]; simpl.
  - now rewrite Ascii.eqb_refl.
  - now rewrite IH.
Qed.

Lemma count_char_rstrip (ch c : ascii) (s : string) :
  Ascii.eqb ch c = false ->
  count_char c (Py.rstrip_char ch s) = count_char c s.
Proof.
  intros Hne. induction s as [|x s IH]; simpl; [reflexivity|].
  destruct (Py.rstrip_char ch s) as [|y r] eqn:E.
  - simpl in IH. rewrite <- IH.
    destruct (Ascii.eqb x ch) eqn:Hx; simpl; [|reflexivity].
    apply Ascii.eqb_eq in Hx as ->. now rewrite Hne.
  - simpl in *. now rewrite IH.
Qed.

End Routing.

(** X9. A [/] more at the end of the path changes nothing: the request is
    served as the one without it (on a GET the path is that of the parsed
    target, on a POST the target itself). *)
Theorem trailing_slash_ignored (w : world) (t : table) (req : request) :
  handle w t (with_slash req) = handle w t req.
Proof.
  unfold handle, with_slash, do_GET, do_POST, route_GET. cbn [command url path].
  destruct (url req) as [|p q]; rewrite !rstrip_char_snoc; reflexivity.
Qed.

(** X10. On a POST the whole target is compared with the route: a target
    with a query string is answered 404 with the body [Not found],
    whatever its path, its headers and its body, and the table is left as
    it was. *)
Theorem post_with_query_string_not_found (w : world) (t : table) (req : request) :
  Py.contains_char "?" (path req) = true ->
  exists r,
    do_POST w t req = (Sent r, t)
    /\ status r = 404%Z
    /\ body r = JsonBody [("error", JStr "Not found")].
Proof.
  intros Hq. unfold do_POST.
  destruct (String.eqb_spec (Py.rstrip_char "/" (path req)) "/api/waitlist")
    as [E|N]; [exfalso | eexists; repeat split].
  assert (C : count_char "?" (Py.rstrip_char "/" (path req))
              = count_char "?" (path req))
    by (apply count_char_rstrip; reflexivity).
  rewrite E in C. simpl in C.
  clear E. induction (path req) as [|c s IH]; simpl in *; [discriminate|].
  destruct (Ascii.eqb c "?"); simpl in *; [discriminate|].
  apply IH; assumption.
Qed.

Lemma post_with_query_string_not_found_witness :
  exists r,
    do_POST quiet_world []
      (mkRequest POST "/api/waitlist?ref=mail"
         (Url "/api/waitlist" [("ref", ["mail"])])
         None (Some "2") (Loaded (LDict [])))
    = (Sent r, [])
    /\ status r = 404%Z
    /\ body r = JsonBody [("error", JStr "Not found")].
Proof. apply post_with_query_string_not_found. reflexivity. Defined.

(** X11. A request that reaches no storage call (OPTIONS, or a GET whose
    target [urlparse] splits and whose path is neither route over the
    table) is answered, and answered the same, whatever the table holds
    and whatever state the backend is in: the health check and the
    preflight work when the database does not. *)
Theorem storage_free_answer (w w' : world) (t t' : table) (req : request) :
  storage_free req ->
  (exists r, fst (handle w t req) = Sent r)
  /\ fst (handle w t req) = fst (handle w' t' req)
  /\ snd (handle w t req) = t.
Proof.
  unfold storage_free, handle. destruct (command req); simpl.
  - intros (Hu & H1 & H2). unfold do_GET, url_path in *.
    destruct (url req) as [|up uq]; [now elim Hu|]. unfold route_GET.
    set (p := match Py.rstrip_char "/" up with
              | EmptyString => "/"
              | p' => p'
              end).
    assert (Hp : p <> "/api/waitlist" /\ p <> "/api/waitlist/entries").
    { subst p. destruct (Py.rstrip_char "/" up);
        [split; discriminate | split; assumption]. }
    clearbody p. destruct Hp as [N1 N2].
    destruct (p =? "/health")%string; [simpl; eauto|].
    destruct (p =? "/healthz")%string; [simpl; eauto|].
    destruct (String.eqb_spec p "/api/waitlist") as [E|_]; [now elim N1|].
    destruct (String.eqb_spec p "/api/waitlist/entries") as [E|_];
      [now elim N2|].
    simpl. eauto.
  - intros [].
  - intros _. eauto.
Qed.

Lemma storage_free_answer_witness :
  fst (handle failing_world five_rows (get_request "/healthz/"))
  = fst (handle quiet_world [] (get_request "/healthz/")).
Proof.
  apply (storage_free_answer failing_world quiet_world five_rows []
           (get_request "/healthz/")).
  repeat split; discriminate.
Defined.

Section Headers.

Lemma json_well_headed req fields st :
  well_headed (Sent (_json_response req fields st)).
Proof.
  simpl. repeat split; try discriminate.
  - intros H. now elim H.
  - intros [s H]. discriminate.
Qed.

Lemma csv_well_headed req entries : well_headed (Sent (_send_csv req entries)).
Proof. simpl. repeat split; try discriminate. intros _. eauto. Qed.

Lemma options_well_headed req : well_headed (Sent (do_OPTIONS req)).
Proof.
  simpl. repeat split; try discriminate.
  - intros H. now elim H.
  - intros [s H]. discriminate.
Qed.

Lemma finish_well_headed (r : result response) :
  (forall resp, r = Ok resp -> well_headed (Sent resp)) ->
  well_headed (finish r).
Proof. destruct r as [resp|e]; simpl; [intros H; now apply H | auto]. Qed.

Lemma do_GET_well_headed w t req : well_headed (do_GET w t req).
Proof.
  unfold do_GET. destruct (url req) as [|p q]; [exact I|]. unfold route_GET.
  destruct (_ || _); [apply json_well_headed|].
  destruct (_ =? "/api/waitlist")%string.
  { apply finish_well_headed. intros resp. unfold waitlist_count.
    destruct (count_fault w); simpl; [discriminate|].
    intros [= <-]. apply json_well_headed. }
  destruct (_ =? "/api/waitlist/entries")%string; [|apply json_well_headed].
  apply finish_well_headed. intros resp.
  destruct (waitlist_entries w t (limit_of_query q));
    simpl; [|discriminate].
  destruct (format_of_query q); simpl; [|discriminate].
  destruct (_ =? "csv")%string.
  - intros [= <-]. apply csv_well_headed.
  - unfold waitlist_count. destruct (count_fault w); simpl; [discriminate|].
    intros [= <-]. apply json_well_headed.
Qed.

Lemma do_POST_well_headed w t req : well_headed (fst (do_POST w t req)).
Proof.
  destruct (do_POST_cases w t req)
    as [[_ _] | (p & n & e & _ & _ & _ & _ & _ & _ & ->)].
  - unfold do_POST, waitlist_count.
    repeat first
      [ apply json_well_headed
      | exact I
      | match goal with
        | |- well_headed (fst (if ?b then _ else _)) => destruct b
        | |- well_headed (fst (match ?x with _ => _ end)) => destruct x
        | |- well_headed (fst (let _ := _ in _)) => cbv zeta
        | |- well_headed (fst (_, _)) => cbn [fst]
        | |- context [count_fault w] =>
            destruct (count_fault w); cbn [finish bind]
        end ].
  - destruct (count_fault w); [exact I | apply json_well_headed].
Qed.

End Headers.

(** X12. Every answer allows the header [Content-Type] and the methods
    [POST, OPTIONS, GET]; its content type is that of its body (JSON for a
    JSON body, CSV text for the export, none for the empty preflight
    answer), and it is marked as an attachment exactly when it is the
    export. *)
Theorem answers_are_well_headed (w : world) (t : table) (req : request) :
  well_headed (fst (handle w t req)).
Proof.
  unfold handle. destruct (command req); cbn [fst].
  - apply do_GET_well_headed.
  - apply do_POST_well_headed.
  - apply options_well_headed.
Qed.

(** ** The sanitizers and the pattern *)

Section Accepted.

Lemma forallb_string_app (p : ascii -> bool) (a b : string) :
  Py.forallb_string p (a ++ b)
  = Py.forallb_string p a && Py.forallb_string p b.
Proof.
  induction a as [|c a IH]; simpl; [reflexivity|].
  now rewrite IH, andb_assoc.
Qed.

Lemma count_char_app (ch : ascii) (a b : string) :
  count_char ch (a ++ b) = (count_char ch a + count_char ch b)%nat.
Proof.
  induction a as [|c a IH]; simpl; [reflexivity|]. rewrite IH. lia.
Qed.

Lemma length_append (a b : string) :
  String.length (a ++ b) = (String.length a + String.length b)%nat.
Proof. induction a as [|c a IH]; simpl; [reflexivity | now rewrite IH]. Qed.

Lemma run_no_at (a : string) :
  run not_space_at a ->
  count_char "@" a = 0%nat
  /\ Py.forallb_string (fun c => negb (Py.isspace c)) a = true
  /\ (1 <= String.length a)%nat.
Proof.
  intros [Hne Hall]. split; [|split].
  - clear Hne. induction a as [|c a IH]; simpl in *; [reflexivity|].
    apply andb_true_iff in Hall as [Hc Ha]. unfold not_space_at in Hc.
    apply andb_true_iff in Hc as [_ Hc]. apply negb_true_iff in Hc.
    rewrite Hc. now apply IH.
  - eapply forallb_string_impl; [|exact Hall].
    intros c Hc. unfold not_space_at in Hc.
    now apply andb_true_iff in Hc as [Hc _].
  - destruct a; [now elim Hne | simpl; lia].
Qed.

End Accepted.

(** X13. [EMAIL_PATTERN] by itself accepts a text exactly when it is a
    run, [@], a run, [.], a run, with or without one line feed after it:
    [$] also holds before a last line feed, so the pattern accepts a text
    of the shape followed by a line feed. *)
Theorem email_pattern_allows_final_newline (s : string) :
  (Re.matches EMAIL_PATTERN s = true
   <-> email_shape s \/ exists s', s = s' ++ newline /\ email_shape s')
  /\ (email_shape s -> Re.matches EMAIL_PATTERN (s ++ newline) = true).
Proof.
  assert (A : Re.matches EMAIL_PATTERN s = true
              <-> email_shape s \/ exists s', s = s' ++ newline /\ email_shape s').
  { rewrite email_pattern_matches. split.
    - intros (l & h & t & e & E & Hl & Hh & Ht & [-> | ->]).
      + left. exists l, h, t. rewrite append_nil_r in E. tauto.
      + right. exists (l ++ "@" ++ h ++ "." ++ t). split.
        * rewrite E. now rewrite !append_assoc.
        * exists l, h, t. tauto.
    - intros [(l & h & t & E & Hl & Hh & Ht) | (s' & -> & l & h & t & E & Hl & Hh & Ht)].
      + exists l, h, t, EmptyString. rewrite append_nil_r. tauto.
      + exists l, h, t, newline. rewrite E, !append_assoc.
        split; [reflexivity | tauto]. }
  split; [exact A|].
  intros (l & h & t & E & Hl & Hh & Ht).
  apply email_pattern_matches. exists l, h, t, newline.
  rewrite E, !append_assoc. split; [reflexivity | tauto].
Qed.

(** X14. A name the sanitizer accepts is at least two characters long, has
    no white space at either end, and is accepted again as it is: the
    sanitizer changes nothing in what it has answered. *)
Theorem sanitized_name_is_stable (v : pyval) (n : string) :
  _sanitize_name v = Some n ->
  (2 <= String.length n)%nat
  /\ clean_edges n
  /\ _sanitize_name (PStr n) = Some n.
Proof.
  intros H. pose proof (sanitize_name_fixed v n H) as F.
  split; [|split; [|exact F]].
  - rewrite sanitize_name_text in F.
    destruct (2 <=? String.length (Py.strip n))%nat eqn:L; [|discriminate].
    injection F as F. apply Nat.leb_le in L. now rewrite F in L.
  - rewrite sanitize_name_text in F.
    destruct (2 <=? String.length (Py.strip n))%nat; [|discriminate].
    injection F as F. rewrite <- F.
    destruct (strip_trimmed n) as (? & ? & _ & _ & _ & C). exact C.
Qed.

Lemma sanitized_name_is_stable_witness :
  _sanitize_name (PStr "Grace Hopper") = Some "Grace Hopper".
Proof.
  apply (sanitized_name_is_stable (PStr "  Grace Hopper ") "Grace Hopper").
  reflexivity.
Defined.

(** X15. An email the sanitizer accepts holds exactly one [@], no white
    space anywhere, no upper-case letter (lower-casing it changes
    nothing) and at least five characters. *)
Theorem sanitized_email_is_plain (v : pyval) (y : string) :
  _sanitize_email v = Some y ->
  count_char "@" y = 1%nat
  /\ Py.forallb_string (fun c => negb (Py.isspace c)) y = true
  /\ Py.lower y = y
  /\ (5 <= String.length y)%nat.
Proof.
  intros H. destruct (sanitize_email_shape v y H) as [E (l & h & t & Ey & Hl & Hh & Ht)].
  destruct (run_no_at l Hl) as (Al & Sl & Ll).
  destruct (run_no_at h Hh) as (Ah & Sh & Lh).
  destruct (run_no_at t Ht) as (At & St & Lt).
  split; [|split; [|split]].
  - rewrite Ey, !count_char_app, Al, Ah, At. reflexivity.
  - rewrite Ey, !forallb_string_app, Sl, Sh, St. reflexivity.
  - rewrite E. apply lower_idem.
  - rewrite Ey, !length_append. simpl. lia.
Qed.

Lemma sanitized_email_is_plain_witness :
  count_char "@" "ada@example.org" = 1%nat
  /\ Py.forallb_string (fun c => negb (Py.isspace c)) "ada@example.org" = true
  /\ Py.lower "ada@example.org" = "ada@example.org"
  /\ (5 <= String.length "ada@example.org")%nat.
Proof.
  apply (sanitized_email_is_plain (PStr " Ada@Example.ORG ") "ada@example.org").
  reflexivity.
Defined.

(** ** The CSV export *)

Section CsvFacts.

Lemma append_snoc_inv (a b : string) (x : ascii) :
  a ++ String x EmptyString = b ++ String x EmptyString -> a = b.
Proof.
  revert b. induction a as [|c a IH]; intros [|d b]; simpl; intros H.
  - reflexivity.
  - injection H as _ H. destruct b; discriminate.
  - injection H as _ H. destruct a; discriminate.
  - injection H as -> H. f_equal. now apply IH.
Qed.

Lemma doubled_injective (f g : string) : doubled f = doubled g -> f = g.
Proof.
  revert g. induction f as [|c f IH]; intros [|d g]; simpl.
  - reflexivity.
  - destruct (Ascii.eqb d dq); discriminate.
  - destruct (Ascii.eqb c dq); discriminate.
  - destruct (Ascii.eqb c dq) eqn:Hc; destruct (Ascii.eqb d dq) eqn:Hd.
    + apply Ascii.eqb_eq in Hc, Hd. subst. intros [= H]. f_equal. now apply IH.
    + intros [= <- H]. now rewrite Ascii.eqb_refl in Hd.
    + intros [= -> H]. now rewrite Ascii.eqb_refl in Hc.
    + intros [= -> H]. f_equal. now apply IH.
Qed.

Lemma count_newline_doubled (f : string) :
  count_char "010" (doubled f) = count_char "010" f.
Proof.
  induction f as [|c f IH]; simpl; [reflexivity|].
  destruct (Ascii.eqb c dq) eqn:Hc; simpl; rewrite IH; [|reflexivity].
  apply Ascii.eqb_eq in Hc as ->. reflexivity.
Qed.

Lemma count_newline_field (f : string) :
  count_char "010" (csv_field f) = count_char "010" f.
Proof.
  rewrite csv_field_quoted. unfold quoted_field.
  destruct (needs_quotes f); [|reflexivity].
  simpl. rewrite count_char_app, count_newline_doubled. simpl. lia.
Qed.

Lemma count_newline_line (e : entry) :
  count_char "010" (csv_line e)
  = (count_char "010" (name e) + count_char "010" (email e)
     + count_char "010" (created_at e))%nat.
Proof.
  unfold csv_line. simpl.
  rewrite !count_char_app. simpl. rewrite !count_char_app. simpl.
  rewrite !count_newline_field. lia.
Qed.

Lemma count_newline_join (first : string) (entries : list entry) :
  count_char "010" (Py.join newline (first :: map csv_line entries))
  = (count_char "010" first + List.length entries
     + embedded_newlines entries)%nat.
Proof.
  revert first. induction entries as [|e es IH]; intros first.
  - simpl. lia.
  - change (Py.join newline (first :: map csv_line (e :: es)))
      with (first ++ newline ++ Py.join newline (csv_line e :: map csv_line es)).
    rewrite !count_char_app, IH, count_newline_line. simpl. lia.
Qed.

End CsvFacts.

Section CsvLines.

Lemma split_lines_length (s : string) :
  List.length (split_lines s) = S (count_char "010" s).
Proof.
  induction s as [|c s IH]; simpl; [reflexivity|].
  destruct (Ascii.eqb c "010"); simpl; [now rewrite IH|].
  destruct (split_lines s); simpl in *; [discriminate | exact IH].
Qed.

Lemma split_lines_first (a rest : string) :
  count_char "010" a = 0%nat ->
  split_lines (a ++ String "010" rest) = a :: split_lines rest.
Proof.
  induction a as [|c a IH]; simpl; [reflexivity|].
  destruct (Ascii.eqb c "010"); simpl; [discriminate|].
  intros H. now rewrite (IH H).
Qed.

Lemma split_lines_one (a : string) :
  count_char "010" a = 0%nat -> split_lines a = [a].
Proof.
  induction a as [|c a IH]; simpl; [reflexivity|].
  destruct (Ascii.eqb c "010"); simpl; [discriminate|].
  intros H. now rewrite (IH H).
Qed.

Lemma split_lines_join (first : string) (parts : list string) :
  count_char "010" first = 0%nat ->
  Forall (fun l => count_char "010" l = 0%nat) parts ->
  split_lines (Py.join newline (first :: parts)) = first :: parts.
Proof.
  intros Hf Hp. revert first Hf.
  induction Hp as [|l ls Hl Hls IH]; intros first Hf.
  - now apply split_lines_one.
  - change (Py.join newline (first :: l :: ls))
      with (first ++ String "010" (Py.join newline (l :: ls))).
    rewrite (split_lines_first _ _ Hf). f_equal. now apply IH.
Qed.

Lemma quoted_lines_without_newline (entries : list entry) :
  embedded_newlines entries = 0%nat ->
  Forall (fun l => count_char "010" l = 0%nat) (map quoted_line entries).
Proof.
  induction entries as [|e es IH]; simpl; [constructor|].
  intros H. constructor.
  - rewrite <- csv_line_quoted, count_newline_line. lia.
  - apply IH. lia.
Qed.

End CsvLines.

(** C7, as stated, fails on an entry whose name holds a line feed, a name
    the sanitizer accepts: the field is written bare with its line feed
    and the one entry takes two lines after the header. *)
Lemma csv_line_feed_in_name_counterexample :
  _sanitize_name (PStr ("A" ++ newline ++ "B")) = Some ("A" ++ newline ++ "B")
  /\ csv_field ("A" ++ newline ++ "B") = "A" ++ newline ++ "B"
  /\ List.length [mkEntry ("A" ++ newline ++ "B") "a@b.c" "2024-05-01 09:00:00"]
     = 1%nat
  /\ split_lines
       (csv_data [mkEntry ("A" ++ newline ++ "B") "a@b.c" "2024-05-01 09:00:00"])
     = ["name,email,created_at"; "A"; "B,a@b.c,2024-05-01 09:00:00"].
Proof. repeat split. Qed.

(** C7, amended. The CSV text is the line [name,email,created_at] followed,
    for each entry in the order of the entries, by a line feed and the
    three fields of the entry joined by commas; a field is written bare
    unless it holds a comma or a double quote, in which case its quotes
    are doubled and it is put between double quotes.  When no field holds
    a line feed this is one line per entry; each line feed inside a field
    adds a line.  This text is the body of the answer to [format=csv],
    over the entries of the listing. *)
Theorem csv_header_then_quoted_lines (entries : list entry) :
  csv_data entries
  = Py.join newline ("name,email,created_at" :: map quoted_line entries)
  /\ (exists rest,
        csv_data entries = "name,email,created_at" ++ rest
        /\ (rest = EmptyString \/ exists r, rest = newline ++ r))
  /\ List.length (split_lines (csv_data entries))
     = (1 + List.length entries + embedded_newlines entries)%nat
  /\ (embedded_newlines entries = 0%nat ->
      split_lines (csv_data entries)
      = "name,email,created_at" :: map quoted_line entries)
  /\ (forall f, needs_quotes f = false -> csv_field f = f)
  /\ (forall f, needs_quotes f = true ->
        csv_field f = String dq (doubled f ++ String dq EmptyString))
  /\ (forall w t req v vs,
        Py.rstrip_char "/" (url_path req) = "/api/waitlist/entries" ->
        query_get (url_query req) "format" = Some (v :: vs) ->
        Py.lower v = "csv" ->
        waitlist_entries w t (limit_of_query (url_query req)) = Ok entries ->
        exists r,
          do_GET w t req = Sent r
          /\ status r = 200%Z
          /\ header "Content-Type" (headers r) = Some "text/csv; charset=utf-8"
          /\ body r = TextBody (csv_data entries)).
Proof.
  assert (E : csv_data entries
              = Py.join newline
                  ("name,email,created_at" :: map quoted_line entries)).
  { unfold csv_data. now rewrite csv_lines_quoted. }
  split; [exact E|]. split.
  { rewrite E. destruct (map quoted_line entries) as [|l ls].
    - exists EmptyString. split; [reflexivity | now left].
    - exists (newline ++ Py.join newline (l :: ls)).
      split; [reflexivity | right; now eexists]. }
  split.
  { rewrite split_lines_length. unfold csv_data.
    rewrite count_newline_join. simpl. lia. }
  split.
  { intros H. rewrite E. apply split_lines_join; [reflexivity|].
    now apply quoted_lines_without_newline. }
  split. { intros f H. rewrite csv_field_quoted. unfold quoted_field. now rewrite H. }
  split. { intros f H. rewrite csv_field_quoted. unfold quoted_field. now rewrite H. }
  intros w t req v vs Hp Hq Hv He.
  rewrite (do_GET_routed w t req _ Hp) by discriminate.
  unfold route_GET. rewrite Hp. simpl. rewrite He. simpl.
  unfold format_of_query. rewrite Hq. simpl. rewrite Hv. simpl.
  eexists. repeat split.
Qed.

Lemma csv_header_then_quoted_lines_witness :
  exists r,
    do_GET quiet_world [mkRow "Doe, Jo" "jo@example.org" "2024-05-01 09:00:00"]
      csv_request
    = Sent r
    /\ body r
       = TextBody
           (csv_data [mkEntry "Doe, Jo" "jo@example.org" "2024-05-01 09:00:00"]).
Proof.
  destruct (csv_header_then_quoted_lines
              [mkEntry "Doe, Jo" "jo@example.org" "2024-05-01 09:00:00"])
    as (_ & _ & _ & _ & _ & _ & H).
  destruct (H quiet_world
              [mkRow "Doe, Jo" "jo@example.org" "2024-05-01 09:00:00"]
              csv_request "csv" [] eq_refl eq_refl eq_refl eq_refl)
    as (r & H1 & _ & _ & H4).
  exists r. split; assumption.
Defined.

(** X16. No two fields are written the same: from what [csv_field] wrote,
    the field can be told. *)
Theorem csv_field_injective (f g : string) :
  csv_field f = csv_field g -> f = g.
Proof.
  rewrite !csv_field_quoted. unfold quoted_field.
  destruct (needs_quotes f) eqn:Hf; destruct (needs_quotes g) eqn:Hg.
  - intros [= H]. apply append_snoc_inv in H. now apply doubled_injective.
  - intros <-. unfold needs_quotes in Hg. simpl in Hg.
    rewrite ?Ascii.eqb_refl, ?orb_true_r in Hg. discriminate.
  - intros ->. unfold needs_quotes in Hf. simpl in Hf.
    rewrite ?Ascii.eqb_refl, ?orb_true_r in Hf. discriminate.
  - auto.
Qed.

Lemma csv_field_injective_witness : "Doe, Jo" = "Doe, Jo".
Proof. apply (csv_field_injective "Doe, Jo" "Doe, Jo"). reflexivity. Defined.

(** X17. The export has one line feed per entry and one more for each
    line feed inside a field: a field with a line feed is written with
    it, quoted or bare, and the text then has more lines than the header
    and the entries make. *)
Theorem csv_line_feeds (entries : list entry) :
  count_char "010" (csv_data entries)
  = (List.length entries + embedded_newlines entries)%nat.
Proof.
  unfold csv_data. rewrite count_newline_join. reflexivity.
Qed.

(** ** A signup seen from the other routes *)

Section Listed.




End Listed.



(** ** Failures of the insert *)



(** ** The listing route with a limit *)

(** X20. On the listing route, with a [limit] that [int] reads as a
    positive number [n] below [2^63], the JSON answer holds the [n] newest
    entries (all of them when there are fewer), gives [limit] as [n], and
    gives as [count] the number of rows of the whole table, not of the
    entries sent. *)
Theorem listing_with_limit (w : world) (t : table) (req : request)
  (v : string) (vs : list string) (n : Z) :
  entries_fault w = None -> count_fault w = None ->
  Py.rstrip_char "/" (url_path req) = "/api/waitlist/entries" ->
  query_get (url_query req) "format" = None ->
  query_get (url_query req) "limit" = Some (v :: vs) ->
  Py.int v = Some n -> (0 < n < 2 ^ 63)%Z ->
  exists r es rows,
    do_GET w t req = Sent r
    /\ status r = 200%Z
    /\ body r
       = JsonBody
           [("entries", JEntries es);
            ("count", JInt (Z.of_nat (List.length t)));
            ("limit", JInt n)]
    /\ carries es rows
    /\ List.length rows = Nat.min (Z.to_nat n) (List.length t)
    /\ newest_first rows
    /\ exists rest, Permutation (rows ++ rest) t
                    /\ newest_first (rows ++ rest).
Proof.
  intros Hf Hc Hp Hfmt Hl Hi [Hn Hb].
  assert (Hlim : limit_of_query (url_query req) = Some n).
  { unfold limit_of_query. rewrite Hl, Hi.
    destruct (n <=? 0)%Z eqn:E; [apply Z.leb_le in E; lia | reflexivity]. }
  eexists.
  exists (map entry_of_row (firstn (Z.to_nat n) (order_by_created_at_desc t))),
         (firstn (Z.to_nat n) (order_by_created_at_desc t)).
  split; [|split; [|split; [|split; [|split; [|split]]]]].
  - rewrite (do_GET_routed w t req _ Hp) by discriminate.
    unfold route_GET. rewrite Hp. simpl. rewrite Hlim.
    unfold waitlist_entries, format_of_query, waitlist_count.
    rewrite Hf, Hfmt, Hc. apply Z.ltb_lt in Hn, Hb. rewrite Hn, Hb.
    reflexivity.
  - reflexivity.
  - reflexivity.
  - apply entries_carry_rows.
  - now rewrite length_firstn, order_by_length.
  - apply firstn_sorted, order_by_sorted.
  - exists (skipn (Z.to_nat n) (order_by_created_at_desc t)).
    rewrite firstn_skipn. split; [apply order_by_perm | apply order_by_sorted].
Qed.

Lemma listing_with_limit_witness :
  exists r es,
    do_GET quiet_world five_rows
      (mkRequest GET "/api/waitlist/entries?limit=+3"
         (Url "/api/waitlist/entries" [("limit", [" 3"])])
         None None JSONDecodeError)
    = Sent r
    /\ body r
       = JsonBody [("entries", JEntries es); ("count", JInt 5); ("limit", JInt 3)]
    /\ List.length es = 3%nat.
Proof.
  destruct (listing_with_limit quiet_world five_rows
              (mkRequest GET "/api/waitlist/entries?limit=+3"
                 (Url "/api/waitlist/entries" [("limit", [" 3"])])
                 None None JSONDecodeError) " 3" [] 3%Z)
    as (r & es & rows & H1 & _ & H3 & (Hn & _) & H5 & _);
    try reflexivity; [split; reflexivity|].
  exists r, es. split; [exact H1|]. split; [exact H3|].
  rewrite <- (length_map name), Hn, length_map. exact H5.
Defined.

(** ** Signups that do not meet *)


